(** * Meeting-preparation agent ([app.py]): model and verified properties

    The program chains four prompt-building stages (context, industry,
    strategy, brief) with a LangGraph [StateGraph].  Every stage reads a
    [MeetingState] dictionary, may call the web-search tool and the
    language model, and returns a one-key partial update.

    Modelling choices:
    - a Python [str] is a sequence of Unicode code points ([list N]), so
      [len], slicing and [strip] count code points as Python does; the
      literals of the UTF-8 source file are decoded by [u];
    - [MeetingState] is a [dict]: [gmap string Value], keys may be absent;
    - the external clients are stateful oracles that may raise; stages
      run in a state/exception/writer monad [M], the writer part records
      the calls, the log lines and the runner's bookkeeping. *)

From Stdlib Require Import ZArith NArith List String Ascii DecimalString Lia.
From stdpp Require Import gmap strings list fin_maps.

Local Open Scope list_scope.

(* ================================================================== *)
(** ** Python strings *)
(* ================================================================== *)

Module PyStr.

(** A [str] value: its code points, in order. *)
Abbreviation pystr := (list N).

(** Decoding of UTF-8 bytes, as the interpreter does for the literals of
    a source file.  Ill-formed tails are dropped (the literals used
    below are all well formed). *)
Fixpoint utf8_decode (bs : list N) : pystr :=
  match bs with
  | [] => []
  | b0 :: r =>
      if (b0 <? 128)%N then b0 :: utf8_decode r
      else if (b0 <? 224)%N then
        match r with
        | b1 :: r1 => ((b0 - 192) * 64 + (b1 - 128))%N :: utf8_decode r1
        | _ => []
        end
      else if (b0 <? 240)%N then
        match r with
        | b1 :: b2 :: r2 =>
            ((b0 - 224) * 4096 + (b1 - 128) * 64 + (b2 - 128))%N
              :: utf8_decode r2
        | _ => []
        end
      else
        match r with
        | b1 :: b2 :: b3 :: r3 =>
            ((b0 - 240) * 262144 + (b1 - 128) * 4096
             + (b2 - 128) * 64 + (b3 - 128))%N :: utf8_decode r3
        | _ => []
        end
  end.

(** The bytes of a literal of the source text, decoded. *)
Definition utf8 (s : string) : pystr :=
  utf8_decode (map N_of_ascii (list_ascii_of_string s)).

(** [u "text"] is the [str] a Python literal ["text"] denotes; the
    decoding is done once, where the literal is written. *)
Notation "'u' s" :=
  (ltac:(let v := eval vm_compute in (utf8 s) in exact v))
  (at level 10, s at level 9, only parsing).

(** The double quote and the line feed, written by code point. *)
Definition dquote : pystr := [34%N].
Definition nl : pystr := [10%N].

(** [len(s)] *)
Definition len (s : pystr) : Z := Z.of_nat (length s).

(** Truth value of a string: [bool(s)], false only for the empty one. *)
Definition truthy (s : pystr) : bool :=
  match s with [] => false | _ :: _ => true end.

(** [c.isspace()] for one code point: the white-space table of CPython
    ([_PyUnicode_IsWhitespace]). *)
Definition isspace (c : N) : bool :=
  ((9 <=? c) && (c <=? 13) || (28 <=? c) && (c <=? 32)
   || (c =? 133) || (c =? 160) || (c =? 5760)
   || (8192 <=? c) && (c <=? 8202)
   || (c =? 8232) || (c =? 8233) || (c =? 8239) || (c =? 8287)
   || (c =? 12288))%N.

Fixpoint lstrip (s : pystr) : pystr :=
  match s with
  | [] => []
  | c :: r => if isspace c then lstrip r else s
  end.

Definition rstrip (s : pystr) : pystr := rev (lstrip (rev s)).

(** [s.strip()]: white space removed at both ends. *)
Definition strip (s : pystr) : pystr := rstrip (lstrip s).

(** [s[:n]], with Python's reading of a negative bound. *)
Definition slice_to (n : Z) (s : pystr) : pystr :=
  if (n <? 0)%Z then firstn (Z.to_nat (len s + n)) s
  else firstn (Z.to_nat n) s.

(** [str(i)] for an [int]. *)
Definition str_of_int (i : Z) : pystr :=
  map N_of_ascii (list_ascii_of_string (NilZero.string_of_int (Z.to_int i))).

(** [x in s] on strings, by scanning the start positions left to right. *)
Fixpoint startswith (x s : pystr) : bool :=
  match x, s with
  | [], _ => true
  | _ :: _, [] => false
  | a :: x', b :: s' => (a =? b)%N && startswith x' s'
  end.

Fixpoint contains (x s : pystr) : bool :=
  startswith x s ||
  match s with
  | [] => false
  | _ :: s' => contains x s'
  end.

(** [x] occurs in [s]. *)
Definition Contains (x s : pystr) : Prop := ∃ a b, s = a ++ x ++ b.

(** The strings of [hs] occur in [s] one after the other, without
    overlap. *)
Inductive InOrder : list pystr → pystr → Prop :=
  | InOrder_nil s : InOrder [] s
  | InOrder_cons h hs a b : InOrder hs b → InOrder (h :: hs) (a ++ h ++ b).

End PyStr.
Import PyStr.

(* ================================================================== *)
(** ** Input validation *)
(* ================================================================== *)

Definition err_company_required : pystr :=
  u "Nome da empresa é obrigatório".
Definition err_objective_required : pystr :=
  u "Objetivo da reunião é obrigatório".
Definition err_attendees_required : pystr :=
  u "Lista de participantes é obrigatória".
Definition err_company_min_length : pystr :=
  u "Nome da empresa deve ter pelo menos 2 caracteres".

(** [validate_inputs]: [None] is Python's [None], [Some msg] the error. *)
Definition validate_inputs (company objective attendees : pystr)
  : option pystr :=
  if negb (truthy (strip company)) then Some err_company_required
  else if negb (truthy (strip objective)) then Some err_objective_required
  else if negb (truthy (strip attendees)) then Some err_attendees_required
  else if (len company <? 2)%Z then Some err_company_min_length
  else None.

(** Empty or made of white space only. *)
Definition blank (s : pystr) : Prop := Forall (λ c, isspace c = true) s.

(* ================================================================== *)
(** ** Values, state dictionary, exceptions *)
(* ================================================================== *)

(** The values stored in a [MeetingState]: [str] and [int]. *)
Inductive Value :=
  | VStr (s : pystr)
  | VInt (i : Z).

(** [MeetingState] is a [TypedDict], a plain [dict] at run time; a node's
    return value is a [dict] too. *)
Abbreviation MeetingState := (gmap string Value).
Abbreviation Update := (gmap string Value).

(** The keys declared by the [MeetingState] class, in its order. *)
Definition MeetingState_keys : list string :=
  [ "company_name"; "meeting_objective"; "attendees"; "duration";
    "focus_areas"; "context_analysis"; "industry_analysis"; "strategy";
    "executive_brief"; "timestamp" ]%string.

(** The part of a dictionary under the keys of [keys]. *)
Definition restrict (keys : list string) (d : gmap string Value)
  : gmap string Value :=
  filter (λ kv : string * Value, kv.1 ∈ keys) d.

(** What an f-string writes for [{v}]. *)
Definition py_format (v : Value) : pystr :=
  match v with
  | VStr s => s
  | VInt i => str_of_int i
  end.

(** The exceptions ([Exception] instances) of the model. *)
Inductive Exc :=
  | KeyError (key : string)          (* [state[key]] on a missing key *)
  | Error (detail : pystr)           (* raised by a client; [detail] is [str(e)] *)
  | GraphRecursionError              (* runner: step budget exhausted *)
  | UnknownNode (name : string).     (* runner: edge to a missing node *)

(** [str(e)].  A [KeyError] prints the [repr] of its key. *)
Definition exc_str (e : Exc) : pystr :=
  match e with
  | KeyError k => u "'" ++ map N_of_ascii (list_ascii_of_string k) ++ u "'"
  | Error d => d
  | GraphRecursionError => u "Recursion limit reached"
  | UnknownNode n => map N_of_ascii (list_ascii_of_string n)
  end.

(** Result of a computation that may raise. *)
Inductive Res (A : Type) :=
  | Ok (a : A)
  | Raise (e : Exc).
Arguments Ok {A} a.
Arguments Raise {A} e.

#[global] Instance Res_ret : MRet Res := λ A a, Ok a.
#[global] Instance Res_bind : MBind Res := λ A B f r,
  match r with
  | Ok a => f a
  | Raise e => Raise e
  end.

(** [state[key]] *)
Definition getitem (state : MeetingState) (key : string) : Res Value :=
  match state !! key with
  | Some v => Ok v
  | None => Raise (KeyError key)
  end.

(** [state.get(key, dflt)] *)
Definition get_or (state : MeetingState) (key : string) (dflt : pystr) : Value :=
  default (VStr dflt) (state !! key).

(** The [initial_state] dictionary built by the entry point;
    [focus_areas or "..."] replaces an empty string. *)
Definition focus_default : pystr := u "Nenhuma área específica definida".

Definition initial_state (company_name meeting_objective attendees : pystr)
    (meeting_duration : Z) (focus_areas now : pystr) : MeetingState :=
  list_to_map
    [ ("company_name", VStr company_name);
      ("meeting_objective", VStr meeting_objective);
      ("attendees", VStr attendees);
      ("duration", VInt meeting_duration);
      ("focus_areas", VStr (if truthy focus_areas then focus_areas else focus_default));
      ("context_analysis", VStr []);
      ("industry_analysis", VStr []);
      ("strategy", VStr []);
      ("executive_brief", VStr []);
      ("timestamp", VStr now) ]%string.

(* ================================================================== *)
(** ** Prompt templates *)
(* ================================================================== *)

(** The f-strings of the four nodes, line by line; every source line of
    a triple-quoted literal ends with a line feed.  Subscripts are
    evaluated left to right, the first missing key raises. *)

Definition context_query_tail : pystr :=
  u " notícias recentes, produtos e serviços 2024 2025".
Definition industry_query_head : pystr :=
  u "Análise de mercado e tendências para o setor da empresa '".
Definition squote : pystr := u "'".

Definition context_query (state : MeetingState) : Res pystr :=
  company ← getitem state "company_name";
  Ok (dquote ++ py_format company ++ dquote ++ context_query_tail).

Definition context_prompt_head (company objective attendees duration : Value) : pystr :=
  concat
    [ nl;
      u "        Você é um analista de negócios sênior. Sua tarefa é analisar o contexto para uma reunião com a empresa '";
      py_format company; u "'."; nl;
      nl;
      u "        **DADOS DA REUNIÃO:**"; nl;
      u "        - Objetivo: "; py_format objective; nl;
      u "        - Participantes: "; py_format attendees; nl;
      u "        - Duração: "; py_format duration; u " minutos"; nl;
      nl;
      u "        **RESULTADOS DA PESQUISA WEB:**"; nl;
      u "        " ].

Definition context_prompt_tail : pystr :=
  concat
    [ nl;
      nl;
      u "        **INSTRUÇÃO:**"; nl;
      u "        Com base nos dados, gere uma análise de contexto concisa em markdown, incluindo:"; nl;
      u "        1.  **Perfil da Empresa:** Setor, porte e posicionamento de mercado."; nl;
      u "        2.  **Notícias Relevantes:** Principais acontecimentos recentes."; nl;
      u "        3.  **Produtos/Serviços Chave:** O que a empresa oferece."; nl;
      u "        4.  **Relevância para a Reunião:** Como este contexto impacta o objetivo da reunião."; nl;
      u "        " ].

Definition context_prompt (state : MeetingState) (search_results : pystr)
  : Res pystr :=
  company ← getitem state "company_name";
  objective ← getitem state "meeting_objective";
  attendees ← getitem state "attendees";
  duration ← getitem state "duration";
  Ok (context_prompt_head company objective attendees duration
      ++ slice_to 3000 search_results
      ++ context_prompt_tail).

Definition industry_query (state : MeetingState) : Res pystr :=
  company ← getitem state "company_name";
  Ok (industry_query_head ++ py_format company ++ squote).

Definition industry_prompt_head (company objective : Value) : pystr :=
  concat
    [ nl;
      u "        Como analista de mercado, sua tarefa é analisar a indústria da empresa '";
      py_format company; u "'."; nl;
      nl;
      u "        **CONTEXTO DA REUNIÃO:**"; nl;
      u "        - Objetivo: "; py_format objective; nl;
      nl;
      u "        **DADOS DE MERCADO (PESQUISA WEB):**"; nl;
      u "        " ].

Definition industry_prompt_tail : pystr :=
  concat
    [ nl;
      nl;
      u "        **INSTRUÇÃO:**"; nl;
      u "        Forneça uma análise da indústria em markdown, focando em:"; nl;
      u "        1.  **Panorama do Setor:** Tamanho, crescimento e características."; nl;
      u "        2.  **Tendências Atuais:** Tecnológicas, de consumo ou regulatórias."; nl;
      u "        3.  **Cenário Competitivo:** Principais concorrentes e seus diferenciais."; nl;
      u "        4.  **Oportunidades e Ameaças (SWOT):** Fatores que podem impactar a reunião."; nl;
      u "        " ].

Definition industry_prompt (state : MeetingState) (industry_results : pystr)
  : Res pystr :=
  company ← getitem state "company_name";
  objective ← getitem state "meeting_objective";
  Ok (industry_prompt_head company objective
      ++ slice_to 3000 industry_results
      ++ industry_prompt_tail).

Definition not_available : pystr := u "Não disponível".

Definition strategy_prompt_head : pystr :=
  concat
    [ nl;
      u "        Você é um consultor estratégico. Sua missão é criar uma estratégia para a reunião com base nas análises."; nl;
      nl;
      u "        **ANÁLISE DE CONTEXTO:**"; nl;
      u "        " ].

Definition strategy_prompt_mid : pystr :=
  concat
    [ nl;
      nl;
      u "        **ANÁLISE DE INDÚSTRIA:**"; nl;
      u "        " ].

Definition strategy_prompt_tail (duration objective attendees : Value) : pystr :=
  concat
    [ nl;
      nl;
      u "        **PARÂMETROS DA REUNIÃO:**"; nl;
      u "        - Duração: "; py_format duration; u " minutos"; nl;
      u "        - Objetivo: "; py_format objective; nl;
      u "        - Participantes: "; py_format attendees; nl;
      nl;
      u "        **INSTRUÇÃO:**"; nl;
      u "        Desenvolva uma estratégia de reunião em markdown, contendo:"; nl;
      u "        1.  **Agenda Detalhada:** Tópicos com tempo alocado (total: ";
      py_format duration; u " min)."; nl;
      u "        2.  **Estratégia de Abordagem:** Mensagens-chave a serem comunicadas e perguntas a serem feitas."; nl;
      u "        3.  **Plano de Ação e Próximos Passos:** O que fazer após a reunião."; nl;
      u "        " ].

Definition strategy_prompt (state : MeetingState) : Res pystr :=
  duration ← getitem state "duration";
  objective ← getitem state "meeting_objective";
  attendees ← getitem state "attendees";
  Ok (strategy_prompt_head
      ++ py_format (get_or state "context_analysis" not_available)
      ++ strategy_prompt_mid
      ++ py_format (get_or state "industry_analysis" not_available)
      ++ strategy_prompt_tail duration objective attendees).

(** The four section headers of the briefing skeleton. *)
Definition header_summary : pystr := u "## 🎯 1. RESUMO DA REUNIÃO".
Definition header_company : pystr := u "## 🏢 2. CONTEXTO DA EMPRESA".
Definition header_market : pystr := u "## 📊 3. ANÁLISE DE MERCADO".
Definition header_strategy : pystr := u "## 🚀 4. ESTRATÉGIA E AGENDA".

Definition analysis_not_available : pystr := u "Análise não disponível.".
Definition strategy_not_available : pystr := u "Estratégia não disponível.".

Definition brief_prompt (state : MeetingState) : Res pystr :=
  company ← getitem state "company_name";
  objective ← getitem state "meeting_objective";
  attendees ← getitem state "attendees";
  duration ← getitem state "duration";
  Ok (concat
    [ nl;
      u "        Como assistente executivo, compile um briefing final para a reunião com '";
      py_format company; u "'."; nl;
      nl;
      u "        **DADOS COMPILADOS:**"; nl;
      u "        - Contexto: "; py_format (get_or state "context_analysis" not_available); nl;
      u "        - Indústria: "; py_format (get_or state "industry_analysis" not_available); nl;
      u "        - Estratégia: "; py_format (get_or state "strategy" not_available); nl;
      nl;
      u "        **INSTRUÇÃO:**"; nl;
      u "        Crie um briefing executivo completo e bem estruturado em markdown. O documento deve ser claro, conciso e visualmente organizado. Use emojis para destacar seções."; nl;
      nl;
      u "        # 📋 BRIEFING EXECUTIVO: Reunião com "; py_format company; nl;
      nl;
      u "        "; header_summary; nl;
      u "        - **Objetivo:** "; py_format objective; nl;
      u "        - **Participantes:** "; py_format attendees; nl;
      u "        - **Duração:** "; py_format duration; u " minutos"; nl;
      nl;
      u "        "; header_company; nl;
      u "        "; py_format (get_or state "context_analysis" analysis_not_available); nl;
      nl;
      u "        "; header_market; nl;
      u "        "; py_format (get_or state "industry_analysis" analysis_not_available); nl;
      nl;
      u "        "; header_strategy; nl;
      u "        "; py_format (get_or state "strategy" strategy_not_available); nl;
      u "        " ]).

(** The text of the warning sign that opens every failure placeholder
    (U+26A0 followed by the variation selector U+FE0F). *)
Definition warning_marker : pystr := u "⚠️".

(* ================================================================== *)
(** ** Effects: clients, log, exceptions *)
(* ================================================================== *)

Inductive Level := INFO | ERROR.

(** What a run leaves behind, in order: log records, calls to the two
    clients with their outcome, and the runner's own steps. *)
Inductive Event :=
  | EvLog (lvl : Level) (msg : pystr)
  | EvSearch (query : pystr) (r : Res pystr)
  | EvLLM (prompt : pystr) (r : Res pystr)
  | EvNode (name : string)
  | EvWrite (key : string) (v : Value).

Section Pipeline.

(** The outside world the clients talk to, and the two module-level
    clients: [search_tool.run(query)] and [llm([HumanMessage(prompt)])],
    the latter giving [response.content].  Either may raise. *)
Variable W : Type.
Variable search_tool : pystr → W → Res pystr * W.
Variable llm : pystr → W → Res pystr * W.

(** Computations: thread the world, may raise, emit events.  An
    exception keeps the effects that came before it. *)
Definition M (A : Type) : Type := W → Res A * W * list Event.

Definition ret {A} (a : A) : M A := λ w, (Ok a, w, []).

Definition bind {A B} (m : M A) (k : A → M B) : M B := λ w,
  match m w with
  | (Ok a, w1, t1) =>
      match k a w1 with
      | (r, w2, t2) => (r, w2, t1 ++ t2)
      end
  | (Raise e, w1, t1) => (Raise e, w1, t1)
  end.

#[local] Instance M_ret : MRet M := @ret.
#[local] Instance M_bind : MBind M := λ A B k m, bind m k.

(** [try: body except Exception as e: handler(e)] *)
Definition try_except {A} (body : M A) (handler : Exc → M A) : M A := λ w,
  match body w with
  | (Ok a, w1, t1) => (Ok a, w1, t1)
  | (Raise e, w1, t1) =>
      match handler e w1 with
      | (r, w2, t2) => (r, w2, t1 ++ t2)
      end
  end.

Definition lift {A} (r : Res A) : M A := λ w, (r, w, []).

Definition emit (ev : Event) : M unit := λ w, (Ok tt, w, [ev]).

Definition logger_info (msg : pystr) : M unit := emit (EvLog INFO msg).
Definition logger_error (msg : pystr) : M unit := emit (EvLog ERROR msg).

Definition search_tool_run (query : pystr) : M pystr := λ w,
  match search_tool query w with
  | (r, w1) => (r, w1, [EvSearch query r])
  end.

Definition llm_content (prompt : pystr) : M pystr := λ w,
  match llm prompt w with
  | (r, w1) => (r, w1, [EvLLM prompt r])
  end.

(* ================================================================== *)
(** ** The four nodes *)
(* ================================================================== *)

Definition context_failure : pystr :=
  u "⚠️ Falha ao analisar o contexto da empresa: ".
Definition industry_failure : pystr :=
  u "⚠️ Falha ao analisar a indústria: ".
Definition strategy_failure : pystr :=
  u "⚠️ Falha ao desenvolver a estratégia: ".
Definition brief_failure : pystr :=
  u "⚠️ Falha ao criar o briefing: ".

(** The texts of the log records. *)
Definition log_context_start : pystr := u "Iniciando análise de contexto para: ".
Definition log_context_done : pystr := u "Análise de contexto concluída.".
Definition log_context_error : pystr := u "Erro na análise de contexto: ".
Definition log_industry_start : pystr := u "Iniciando análise de indústria.".
Definition log_industry_done : pystr := u "Análise de indústria concluída.".
Definition log_industry_error : pystr := u "Erro na análise de indústria: ".
Definition log_strategy_start : pystr := u "Desenvolvendo estratégia da reunião.".
Definition log_strategy_done : pystr := u "Estratégia da reunião desenvolvida.".
Definition log_strategy_error : pystr := u "Erro no desenvolvimento da estratégia: ".
Definition log_brief_start : pystr := u "Criando o briefing executivo.".
Definition log_brief_done : pystr := u "Briefing executivo finalizado.".
Definition log_brief_error : pystr := u "Erro na criação do briefing: ".

Definition context_analysis_node (state : MeetingState) : M Update :=
  company ← lift (getitem state "company_name");
  logger_info (log_context_start ++ py_format company);;
  try_except
    (query ← lift (context_query state);
     search_results ← search_tool_run query;
     prompt ← lift (context_prompt state search_results);
     content ← llm_content prompt;
     logger_info log_context_done;;
     mret ({[ "context_analysis"%string := VStr content ]} : Update))
    (λ e,
     logger_error (log_context_error ++ exc_str e);;
     mret ({[ "context_analysis"%string := VStr (context_failure ++ exc_str e) ]} : Update)).

Definition industry_analysis_node (state : MeetingState) : M Update :=
  logger_info log_industry_start;;
  try_except
    (industry_query ← lift (industry_query state);
     industry_results ← search_tool_run industry_query;
     prompt ← lift (industry_prompt state industry_results);
     content ← llm_content prompt;
     logger_info log_industry_done;;
     mret ({[ "industry_analysis"%string := VStr content ]} : Update))
    (λ e,
     logger_error (log_industry_error ++ exc_str e);;
     mret ({[ "industry_analysis"%string := VStr (industry_failure ++ exc_str e) ]} : Update)).

Definition strategy_development_node (state : MeetingState) : M Update :=
  logger_info log_strategy_start;;
  try_except
    (prompt ← lift (strategy_prompt state);
     content ← llm_content prompt;
     logger_info log_strategy_done;;
     mret ({[ "strategy"%string := VStr content ]} : Update))
    (λ e,
     logger_error (log_strategy_error ++ exc_str e);;
     mret ({[ "strategy"%string := VStr (strategy_failure ++ exc_str e) ]} : Update)).

Definition executive_brief_node (state : MeetingState) : M Update :=
  logger_info log_brief_start;;
  try_except
    (prompt ← lift (brief_prompt state);
     content ← llm_content prompt;
     logger_info log_brief_done;;
     mret ({[ "executive_brief"%string := VStr content ]} : Update))
    (λ e,
     logger_error (log_brief_error ++ exc_str e);;
     mret ({[ "executive_brief"%string := VStr (brief_failure ++ exc_str e) ]} : Update)).

(* ================================================================== *)
(** ** The workflow graph and its runner *)
(* ================================================================== *)

(** A [StateGraph]: the keys of its state schema, named nodes and
    directed edges, in insertion order.  The state of the compiled
    graph has one channel per key of the schema and no other: keys
    outside the schema, in the input or in a node's update, are not
    carried.  [START] and [END] are the two reserved names of the
    library. *)
Definition START : string := "__start__".
Definition END : string := "__end__".

Record StateGraph := {
  sg_schema : list string;
  sg_nodes : list (string * (MeetingState → M Update));
  sg_edges : list (string * string)
}.

(** [StateGraph(schema)] *)
Definition state_graph (schema : list string) : StateGraph :=
  {| sg_schema := schema; sg_nodes := []; sg_edges := [] |}.

Definition add_node (name : string) (fn : MeetingState → M Update)
    (g : StateGraph) : StateGraph :=
  {| sg_schema := sg_schema g;
     sg_nodes := sg_nodes g ++ [(name, fn)];
     sg_edges := sg_edges g |}.

Definition add_edge (src dst : string) (g : StateGraph) : StateGraph :=
  {| sg_schema := sg_schema g;
     sg_nodes := sg_nodes g;
     sg_edges := sg_edges g ++ [(src, dst)] |}.

Definition set_entry_point (name : string) (g : StateGraph) : StateGraph :=
  add_edge START name g.

(** [build_workflow]: the statements of the source, in order. *)
Definition build_workflow : StateGraph :=
  let workflow := state_graph MeetingState_keys in
  let workflow := add_node "context" context_analysis_node workflow in
  let workflow := add_node "industry" industry_analysis_node workflow in
  let workflow := add_node "strategy" strategy_development_node workflow in
  let workflow := add_node "brief" executive_brief_node workflow in
  let workflow := set_entry_point "context" workflow in
  let workflow := add_edge "context" "industry" workflow in
  let workflow := add_edge "industry" "strategy" workflow in
  let workflow := add_edge "strategy" "brief" workflow in
  let workflow := add_edge "brief" END workflow in
  workflow.

Fixpoint find_node (name : string)
    (l : list (string * (MeetingState → M Update)))
  : option (MeetingState → M Update) :=
  match l with
  | [] => None
  | (n, fn) :: r => if String.eqb n name then Some fn else find_node name r
  end.

Fixpoint successor (name : string) (l : list (string * string))
  : option string :=
  match l with
  | [] => None
  | (a, b) :: r => if String.eqb a name then Some b else successor name r
  end.

(** The runner merges the schema keys of a node's partial update, key
    by key, into the running state (the update wins), recording each
    write. *)
Definition emit_writes (update : Update) : M unit := λ w,
  (Ok tt, w, map (λ kv, EvWrite kv.1 kv.2) (map_to_list update)).

(** Default step budget of the library's runner. *)
Definition recursion_limit : nat := 25.

(** Sequential execution along the edges, from node [cur].  The graphs
    built here have one outgoing edge per node; the first one is
    followed. *)
Fixpoint run_from (fuel : nat) (g : StateGraph) (cur : string)
    (state : MeetingState) : M MeetingState :=
  if String.eqb cur END then mret state
  else
    match fuel with
    | O => lift (Raise GraphRecursionError)
    | S fuel' =>
        match find_node cur (sg_nodes g) with
        | None => lift (Raise (UnknownNode cur))
        | Some fn =>
            emit (EvNode cur);;
            update ← fn state;
            let written := restrict (sg_schema g) update in
            emit_writes written;;
            match successor cur (sg_edges g) with
            | Some next => run_from fuel' g next (written ∪ state)
            | None => mret (written ∪ state)
            end
        end
    end.

(** [app.invoke(initial_state)] for [app = workflow.compile()]: the
    schema keys of the input fill the channels, the run starts at the
    entry point, the channels are returned. *)
Definition invoke (g : StateGraph) (state : MeetingState) : M MeetingState :=
  match successor START (sg_edges g) with
  | Some first =>
      run_from recursion_limit g first (restrict (sg_schema g) state)
  | None => lift (Raise (UnknownNode START))
  end.

(** [run(initial_state)]: build the workflow and invoke it. *)
Definition run (state : MeetingState) : M MeetingState :=
  invoke build_workflow state.

End Pipeline.

Arguments ret {W A} a.
Arguments lift {W A} r.
Arguments emit {W} ev.

(* ================================================================== *)
(** ** Reading a trace *)
(* ================================================================== *)

(** The nodes the runner executed, in order. *)
Fixpoint executed (t : list Event) : list string :=
  match t with
  | [] => []
  | EvNode n :: r => n :: executed r
  | _ :: r => executed r
  end.

(** The keys the runner wrote, each with the node that was running. *)
Fixpoint writes_from (cur : string) (t : list Event) : list (string * string) :=
  match t with
  | [] => []
  | EvNode n :: r => writes_from n r
  | EvWrite k _ :: r => (cur, k) :: writes_from cur r
  | _ :: r => writes_from cur r
  end.

Definition writes (t : list Event) : list (string * string) :=
  writes_from EmptyString t.

(** The keys the runner wrote with the values it wrote, in order. *)
Fixpoint written (t : list Event) : list (string * Value) :=
  match t with
  | [] => []
  | EvWrite k v :: r => (k, v) :: written r
  | _ :: r => written r
  end.

(** The prompts handed to the language model, in order. *)
Fixpoint prompts (t : list Event) : list pystr :=
  match t with
  | [] => []
  | EvLLM p _ :: r => p :: prompts r
  | _ :: r => prompts r
  end.

(** The queries handed to the search tool, in order. *)
Fixpoint queries (t : list Event) : list pystr :=
  match t with
  | [] => []
  | EvSearch q _ :: r => q :: queries r
  | _ :: r => queries r
  end.

(** The events of node [name]: from its start to the next node start. *)
Fixpoint until_node (t : list Event) : list Event :=
  match t with
  | [] => []
  | EvNode _ :: _ => []
  | ev :: r => ev :: until_node r
  end.

Fixpoint segment (name : string) (t : list Event) : list Event :=
  match t with
  | [] => []
  | EvNode n :: r => if String.eqb n name then until_node r else segment name r
  | _ :: r => segment name r
  end.

(** Outcome of the client calls of a segment: the exception of the
    first call that raised, else the content of the last completion. *)
Fixpoint calls_outcome (t : list Event) (last : option pystr)
  : option (Res pystr) :=
  match t with
  | [] => Ok <$> last
  | EvSearch _ (Raise e) :: _ => Some (Raise e)
  | EvLLM _ (Raise e) :: _ => Some (Raise e)
  | EvLLM _ (Ok c) :: r => calls_outcome r (Some c)
  | _ :: r => calls_outcome r last
  end.

Definition stage_outcome (name : string) (t : list Event) : option (Res pystr) :=
  calls_outcome (segment name t) None.

(* ================================================================== *)
(** ** Stages *)
(* ================================================================== *)

Inductive Stage := Context | Industry | Strategy | Brief.

Definition stage_name (n : Stage) : string :=
  match n with
  | Context => "context"
  | Industry => "industry"
  | Strategy => "strategy"
  | Brief => "brief"
  end.

(** The output field of a stage and the text that opens its failure
    placeholder. *)
Definition stage_field (n : Stage) : string :=
  match n with
  | Context => "context_analysis"
  | Industry => "industry_analysis"
  | Strategy => "strategy"
  | Brief => "executive_brief"
  end.

Definition stage_failure (n : Stage) : pystr :=
  match n with
  | Context => context_failure
  | Industry => industry_failure
  | Strategy => strategy_failure
  | Brief => brief_failure
  end.

Definition stage_node {W} (search_tool llm : pystr → W → Res pystr * W)
    (n : Stage) : MeetingState → M W Update :=
  match n with
  | Context => context_analysis_node W search_tool llm
  | Industry => industry_analysis_node W search_tool llm
  | Strategy => strategy_development_node W llm
  | Brief => executive_brief_node W llm
  end.

Definition output_fields : list string :=
  [ "context_analysis"; "industry_analysis"; "strategy"; "executive_brief" ]%string.

(** The keys every node reads with a subscript. *)
Definition has_inputs (state : MeetingState) : Prop :=
  is_Some (state !! "company_name") ∧ is_Some (state !! "meeting_objective")
  ∧ is_Some (state !! "attendees") ∧ is_Some (state !! "duration").

(** The value [v] a stage wrote matches the client calls [t] it made:
    the failure placeholder with the detail of the call that raised,
    else the content of its completion. *)
Definition outcome_matches (n : Stage) (v : pystr) (t : list Event) : Prop :=
  match calls_outcome t None with
  | Some (Raise e) => v = stage_failure n ++ exc_str e
  | Some (Ok content) => v = content
  | None => False
  end.

(** Stage [n], started on [state] in world [w], returned the update
    [{field: v}] in world [w'] after the events [t]. *)
Definition stage_ran {W} (search_tool llm : pystr → W → Res pystr * W)
    (n : Stage) (state : MeetingState) (w : W)
    (v : pystr) (w' : W) (t : list Event) : Prop :=
  stage_node search_tool llm n state w
    = (Ok {[ stage_field n := VStr v ]}, w', t)
  ∧ executed t = [] ∧ (∀ cur, writes_from cur t = [])
  ∧ outcome_matches n v t
  ∧ ((∃ e, v = stage_failure n ++ exc_str e)
     ∨ (∃ p w0 w1, llm p w0 = (Ok v, w1))).

(** The events of one stage in a run: the runner's start mark, the
    node's own events, the runner's write. *)
Definition stage_events (n : Stage) (v : pystr) (t : list Event) : list Event :=
  EvNode (stage_name n) :: t ++ [EvWrite (stage_field n) (VStr v)].

(** Two states that agree on every key but [key]. *)
Definition agree_off (key : string) (s1 s2 : MeetingState) : Prop :=
  ∀ k, k ≠ key → s1 !! k = s2 !! k.

(** A client whose answer depends on its argument only. *)
Definition deterministic {W} (client : pystr → W → Res pystr * W) : Prop :=
  ∀ x w1 w2, (client x w1).1 = (client x w2).1.

(** A computation whose result and events do not depend on the world
    it starts in. *)
Definition world_independent {W A} (m : M W A) : Prop :=
  ∀ w1 w2, (m w1).1.1 = (m w2).1.1 ∧ (m w1).2 = (m w2).2.

(* ================================================================== *)
(** ** Stand-ins for the clients *)
(* ================================================================== *)

(** The world of the stand-ins counts the calls made so far. *)
Definition stub_ok (canned : pystr) : pystr → nat → Res pystr * nat :=
  λ _ n, (Ok canned, S n).

Definition stub_raise (detail : pystr) : pystr → nat → Res pystr * nat :=
  λ _ n, (Raise (Error detail), S n).

(** A stand-in for [str.lower]: the ASCII capitals only. *)
Definition lower_ascii (s : pystr) : pystr :=
  map (λ c, if ((65 <=? c) && (c <=? 90))%N then (c + 32)%N else c) s.

(** The scenario state: Acme, 60 minutes, no focus areas. *)
Definition acme_state : MeetingState :=
  initial_state (u "Acme") (u "Discuss partnership") (u "John - CEO") 60
    [] (u "2025-01-01T00:00:00").

(* ================================================================== *)
(** ** The four nodes as one skeleton *)
(* ================================================================== *)

(** The four node functions share one shape: a start record, an
    optional search, a prompt, a completion, and one handler.  The
    pieces that differ, stage by stage: *)

(** the text of the start record, read before the [try]; *)
Definition stage_log_start (n : Stage) (state : MeetingState) : Res pystr :=
  match n with
  | Context =>
      company ← getitem state "company_name";
      Ok (log_context_start ++ py_format company)
  | Industry => Ok log_industry_start
  | Strategy => Ok log_strategy_start
  | Brief => Ok log_brief_start
  end.

Definition stage_log_done (n : Stage) : pystr :=
  match n with
  | Context => log_context_done
  | Industry => log_industry_done
  | Strategy => log_strategy_done
  | Brief => log_brief_done
  end.

Definition stage_log_error (n : Stage) : pystr :=
  match n with
  | Context => log_context_error
  | Industry => log_industry_error
  | Strategy => log_strategy_error
  | Brief => log_brief_error
  end.

(** the search query, for the two stages that search; *)
Definition stage_query (n : Stage) (state : MeetingState)
  : option (Res pystr) :=
  match n with
  | Context => Some (context_query state)
  | Industry => Some (industry_query state)
  | Strategy | Brief => None
  end.

(** the prompt, given the search results where there are any. *)
Definition stage_prompt (n : Stage) (state : MeetingState)
    (results : pystr) : Res pystr :=
  match n with
  | Context => context_prompt state results
  | Industry => industry_prompt state results
  | Strategy => strategy_prompt state
  | Brief => brief_prompt state
  end.

(** The [except] branch: log the error, return the placeholder. *)
Definition stage_failed {W} (n : Stage) (e : Exc) (w : W)
    (pre : list Event) : Res Update * W * list Event :=
  (Ok {[ stage_field n := VStr (stage_failure n ++ exc_str e) ]}, w,
   pre ++ [EvLog ERROR (stage_log_error n ++ exc_str e)]).

(** From the prompt on: the completion call and the return. *)
Definition stage_complete {W} (llm : pystr → W → Res pystr * W)
    (n : Stage) (prompt : Res pystr) (w : W) (pre : list Event)
  : Res Update * W * list Event :=
  match prompt with
  | Raise e => stage_failed n e w pre
  | Ok p =>
      match llm p w with
      | (Raise e, w1) => stage_failed n e w1 (pre ++ [EvLLM p (Raise e)])
      | (Ok content, w1) =>
          (Ok {[ stage_field n := VStr content ]}, w1,
           pre ++ [EvLLM p (Ok content); EvLog INFO (stage_log_done n)])
      end
  end.

Definition stage_model {W} (search_tool llm : pystr → W → Res pystr * W)
    (n : Stage) (state : MeetingState) (w : W)
  : Res Update * W * list Event :=
  match stage_log_start n state with
  | Raise e => (Raise e, w, [])
  | Ok start =>
      let pre := [EvLog INFO start] in
      match stage_query n state with
      | None => stage_complete llm n (stage_prompt n state []) w pre
      | Some (Raise e) => stage_failed n e w pre
      | Some (Ok query) =>
          match search_tool query w with
          | (Raise e, w1) =>
              stage_failed n e w1 (pre ++ [EvSearch query (Raise e)])
          | (Ok results, w1) =>
              stage_complete llm n (stage_prompt n state results) w1
                (pre ++ [EvSearch query (Ok results)])
          end
      end
  end.

(** The keys a stage reads, by subscript or by [get]. *)
Definition stage_reads (n : Stage) : list string :=
  match n with
  | Context =>
      [ "company_name"; "meeting_objective"; "attendees"; "duration" ]
  | Industry => [ "company_name"; "meeting_objective" ]
  | Strategy =>
      [ "context_analysis"; "industry_analysis"; "duration";
        "meeting_objective"; "attendees" ]
  | Brief =>
      [ "company_name"; "context_analysis"; "industry_analysis"; "strategy";
        "meeting_objective"; "attendees"; "duration" ]
  end%string.

(** The keys a stage reads by subscript, which raises when the key is
    missing. *)
Definition stage_subscripts (n : Stage) : list string :=
  match n with
  | Context | Brief =>
      [ "company_name"; "meeting_objective"; "attendees"; "duration" ]
  | Industry => [ "company_name"; "meeting_objective" ]
  | Strategy => [ "duration"; "meeting_objective"; "attendees" ]
  end%string.

(** The four inputs of the pipeline. *)
Definition input_fields : list string :=
  [ "company_name"; "meeting_objective"; "attendees"; "duration" ]%string.

(** Two states with the same values under the keys of [keys]. *)
Definition agree_on (keys : list string) (s1 s2 : MeetingState) : Prop :=
  ∀ k, k ∈ keys → s1 !! k = s2 !! k.

(** Position of a stage in the chain. *)
Definition stage_index (n : Stage) : nat :=
  match n with
  | Context => 0
  | Industry => 1
  | Strategy => 2
  | Brief => 3
  end.

(** An exception raised by one of the client calls recorded in [t]. *)
Definition call_raised (e : Exc) (t : list Event) : Prop :=
  (∃ q, EvSearch q (Raise e) ∈ t) ∨ (∃ p, EvLLM p (Raise e) ∈ t).

(* ================================================================== *)
(** ** The entry point: the button handler *)
(* ================================================================== *)

(** The calls made on the page, in order. *)
Inductive UI :=
  | StWarning (body : pystr)
  | StProgress (value : Z) (text : pystr)
  | StProgressEmpty
  | StSuccess (body : pystr)
  | StMarkdown (body : pystr)
  | StDownloadButton (label data file_name mime : pystr)
  | StError (body : pystr).

Definition space : N := 32.
Definition underscore : N := 95.

(** [s.replace(' ', '_')]: both strings are one character long. *)
Definition replace_spaces (s : pystr) : pystr :=
  map (λ c, if (c =? space)%N then underscore else c) s.

Section EntryPoint.

Variable W : Type.
Variable search_tool : pystr → W → Res pystr * W.
Variable llm : pystr → W → Res pystr * W.

(** [str.lower] is the interpreter's, with its Unicode tables; it is
    taken as given. *)
Variable lower : pystr → pystr.

(** [f"briefing_{company_name.lower().replace(' ', '_')}.md"] *)
Definition briefing_file_name (company_name : pystr) : pystr :=
  u "briefing_" ++ replace_spaces (lower company_name) ++ u ".md".

Definition workflow_error (e : Exc) : UI :=
  StError (u "❌ **Ocorreu um erro durante a preparação:** " ++ exc_str e).

Definition log_workflow_error (e : Exc) : Event :=
  EvLog ERROR (u "Erro na execução do workflow: " ++ exc_str e).

(** The body of [if st.button(...)], from the validation on.
    [langsmith] tells whether the tracing key is set: the workflow is
    invoked the same way with and without the tracing context.  The
    result: the page calls, the world, the events. *)
Definition on_click (company_name meeting_objective attendees : pystr)
    (meeting_duration : Z) (focus_areas now : pystr) (langsmith : bool)
    (w : W) : list UI * W * list Event :=
  let validation_error :=
    validate_inputs company_name meeting_objective attendees in
  if match validation_error with
     | Some msg => truthy msg
     | None => false
     end
  then
    ([StWarning (u "⚠️ " ++ default [] validation_error)], w, [])
  else
    let initial_state :=
      initial_state company_name meeting_objective attendees
        meeting_duration focus_areas now in
    let progress_bar := StProgress 0 (u "Iniciando análise...") in
    let invoked :=
      if langsmith
      then run W search_tool llm initial_state w
      else run W search_tool llm initial_state w in
    match invoked with
    | (Raise e, w1, t) =>
        ([progress_bar; workflow_error e; StProgressEmpty], w1,
         t ++ [log_workflow_error e])
    | (Ok result, w1, t) =>
        let shown :=
          [progress_bar; StProgress 100 (u "Briefing finalizado!");
           StSuccess (u "✅ **Briefing preparado com sucesso!**");
           StMarkdown (u "---")] in
        match getitem result "executive_brief" with
        | Raise e =>
            (shown ++ [workflow_error e; StProgressEmpty], w1,
             t ++ [log_workflow_error e])
        | Ok brief =>
            (shown ++
             [StMarkdown (py_format brief);
              StDownloadButton (u "📥 Download do Briefing (MD)")
                (py_format brief) (briefing_file_name company_name)
                (u "text/markdown");
              StProgressEmpty], w1, t)
        end
    end.

End EntryPoint.

(* ================================================================== *)
(** * Properties *)
(* ================================================================== *)


(** ** Strings *)

Lemma truthy_false (s : pystr) : truthy s = false ↔ s = [].
Proof. destruct s; simpl; split; congruence. Qed.

Lemma lstrip_blank (s : pystr) : blank s → lstrip s = [].
Proof.
  induction 1 as [|c r Hc _ IH]; simpl; [done|].
  by rewrite Hc.
Qed.

Lemma lstrip_head (s : pystr) c r : lstrip s = c :: r → isspace c = false.
Proof.
  induction s as [|a s IH]; simpl; [done|].
  destruct (isspace a) eqn:Ha; [done|].
  intros [= <- _]. done.
Qed.

Lemma lstrip_nil (s : pystr) : lstrip s = [] → blank s.
Proof.
  induction s as [|a s IH]; simpl; [constructor|].
  destruct (isspace a) eqn:Ha; [|done].
  intros H. constructor; [done | by apply IH].
Qed.

Lemma blank_rev (s : pystr) : blank (rev s) ↔ blank s.
Proof.
  unfold blank. split; intros H.
  - rewrite <- (rev_involutive s). by apply Forall_rev.
  - by apply Forall_rev.
Qed.

Lemma strip_nil_iff (s : pystr) : strip s = [] ↔ blank s.
Proof.
  unfold strip, rstrip. split.
  - intros H.
    assert (Hl : lstrip (rev (lstrip s)) = []).
    { rewrite <- (rev_involutive (lstrip _)), H. done. }
    apply lstrip_nil in Hl. apply (proj1 (blank_rev _)) in Hl.
    destruct (lstrip s) as [|c r] eqn:E; [by apply lstrip_nil|].
    apply lstrip_head in E. apply Forall_inv in Hl. simpl in Hl. congruence.
  - intros H. by rewrite (lstrip_blank s H).
Qed.

Lemma not_truthy_strip (s : pystr) : negb (truthy (strip s)) = true ↔ blank s.
Proof.
  rewrite negb_true_iff, truthy_false. apply strip_nil_iff.
Qed.

Lemma not_truthy_strip_false (s : pystr) :
  negb (truthy (strip s)) = false ↔ ¬ blank s.
Proof.
  rewrite <- not_truthy_strip. destruct (negb _); split; congruence.
Qed.

Example u_decodes : u "é ⚠️" = [233; 32; 9888; 65039]%N.
Proof. reflexivity. Qed.

Example strip_sample : strip (u "  A b  ") = u "A b".
Proof. reflexivity. Qed.

Example str_of_int_samples :
  str_of_int 60 = u "60" ∧ str_of_int 0 = u "0" ∧ str_of_int (-5) = u "-5".
Proof. repeat split; reflexivity. Qed.

Example slice_to_samples :
  slice_to 3 (u "abcdef") = u "abc" ∧ slice_to 9 (u "abc") = u "abc"
  ∧ slice_to (-1) (u "abc") = u "ab".
Proof. repeat split; reflexivity. Qed.

(** ** Input validation *)

(** The result of [validate_inputs], case by case in the order of its
    tests. *)
Lemma validate_inputs_cases company objective attendees :
  (blank company ∧ validate_inputs company objective attendees = Some err_company_required)
  ∨ (¬ blank company ∧ blank objective
     ∧ validate_inputs company objective attendees = Some err_objective_required)
  ∨ (¬ blank company ∧ ¬ blank objective ∧ blank attendees
     ∧ validate_inputs company objective attendees = Some err_attendees_required)
  ∨ (¬ blank company ∧ ¬ blank objective ∧ ¬ blank attendees ∧ (len company < 2)%Z
     ∧ validate_inputs company objective attendees = Some err_company_min_length)
  ∨ (¬ blank company ∧ ¬ blank objective ∧ ¬ blank attendees ∧ (2 ≤ len company)%Z
     ∧ validate_inputs company objective attendees = None).
Proof.
  unfold validate_inputs.
  destruct (negb (truthy (strip company))) eqn:Hc.
  { apply not_truthy_strip in Hc. left. by split. }
  apply not_truthy_strip_false in Hc.
  destruct (negb (truthy (strip objective))) eqn:Ho.
  { apply not_truthy_strip in Ho. right; left. by repeat split. }
  apply not_truthy_strip_false in Ho.
  destruct (negb (truthy (strip attendees))) eqn:Ha.
  { apply not_truthy_strip in Ha. do 2 right; left. by repeat split. }
  apply not_truthy_strip_false in Ha.
  destruct (Z.ltb_spec (len company) 2).
  - do 3 right; left. by repeat split.
  - do 4 right. by repeat split.
Qed.

(** C3: [validate_inputs] returns an error exactly when one of the three
    strings is empty or white space only, or the company name has fewer
    than two characters, and [None] otherwise; the four sample calls
    give the company-required, objective-required and minimum-length
    errors and no error. *)
Theorem validate_inputs_spec :
  (∀ company objective attendees,
      is_Some (validate_inputs company objective attendees)
      ↔ blank company ∨ blank objective ∨ blank attendees
        ∨ (len company < 2)%Z)
  ∧ (∀ company objective attendees,
      validate_inputs company objective attendees = None
      ↔ ¬ blank company ∧ ¬ blank objective ∧ ¬ blank attendees
        ∧ (2 ≤ len company)%Z)
  ∧ validate_inputs (u " ") (u "x") (u "y") = Some err_company_required
  ∧ validate_inputs (u "Acme") [] (u "y") = Some err_objective_required
  ∧ validate_inputs (u "A") (u "x") (u "y") = Some err_company_min_length
  ∧ validate_inputs (u "Acme") (u "Partner up") (u "John - CEO") = None.
Proof.
  split; [|split; [|repeat split; vm_compute; reflexivity]].
  - intros c o a.
    destruct (validate_inputs_cases c o a)
      as [(?&E)|[(?&?&E)|[(?&?&?&E)|[(?&?&?&?&E)|(?&?&?&?&E)]]]];
      rewrite E;
      (split; intros Hor;
       [ first [ tauto | by destruct Hor as [? [=]] ]
       | first [ by eauto | destruct Hor as [?|[?|[?|?]]]; try done; lia ] ]).
  - intros c o a.
    destruct (validate_inputs_cases c o a)
      as [(?&E)|[(?&?&E)|[(?&?&?&E)|[(?&?&?&?&E)|(?&?&?&?&E)]]]];
      rewrite E; (split; [intros HE | intros (?&?&?&?)]); try done; try lia.
Qed.

(** C10: the emptiness tests look at the stripped strings, the length
    test at the raw company name.  A company name of raw length at least
    two whose stripped form is a single character never gets a company
    error, and passes validation whenever the objective and the
    attendee list are not blank; [" A "] is such a name. *)
Theorem validate_inputs_raw_length company objective attendees :
  (2 ≤ len company)%Z →
  (0 < len (strip company) < 2)%Z →
  validate_inputs company objective attendees ≠ Some err_company_required
  ∧ validate_inputs company objective attendees ≠ Some err_company_min_length
  ∧ (¬ blank objective → ¬ blank attendees →
     validate_inputs company objective attendees = None)
  ∧ (blank objective →
     validate_inputs company objective attendees = Some err_objective_required)
  ∧ (¬ blank objective → blank attendees →
     validate_inputs company objective attendees = Some err_attendees_required).
Proof.
  intros Hraw Hstrip.
  assert (Hnb : ¬ blank company).
  { intros Hb. apply strip_nil_iff in Hb. rewrite Hb in Hstrip.
    unfold len in Hstrip. simpl in Hstrip. lia. }
  destruct (validate_inputs_cases company objective attendees)
    as [(?&E)|[(?&?&E)|[(?&?&?&E)|[(?&?&?&?&E)|(?&?&?&?&E)]]]];
    rewrite E; try done; try lia; repeat split; try done.
Qed.

Lemma validate_inputs_raw_length_witness :
  (2 ≤ len (u " A "))%Z
  ∧ (0 < len (strip (u " A ")) < 2)%Z
  ∧ validate_inputs (u " A ") (u "x") (u "y") ≠ Some err_company_required
  ∧ validate_inputs (u " A ") (u "x") (u "y") ≠ Some err_company_min_length
  ∧ (¬ blank (u "x") → ¬ blank (u "y") →
     validate_inputs (u " A ") (u "x") (u "y") = None)
  ∧ (blank (u "x") →
     validate_inputs (u " A ") (u "x") (u "y") = Some err_objective_required)
  ∧ (¬ blank (u "x") → blank (u "y") →
     validate_inputs (u " A ") (u "x") (u "y") = Some err_attendees_required).
Proof.
  assert (H1 : (2 ≤ len (u " A "))%Z) by (vm_compute; discriminate).
  assert (H2 : (0 < len (strip (u " A ")) < 2)%Z)
    by (vm_compute; split; reflexivity).
  split; [exact H1|]. split; [exact H2|].
  exact (validate_inputs_raw_length (u " A ") (u "x") (u "y") H1 H2).
Defined.

(** ** Reading traces *)

Lemma executed_app t1 t2 : executed (t1 ++ t2) = executed t1 ++ executed t2.
Proof.
  induction t1 as [|[] t1 IH]; simpl; [done|..]; try done.
  by rewrite IH.
Qed.

Lemma prompts_app t1 t2 : prompts (t1 ++ t2) = prompts t1 ++ prompts t2.
Proof.
  induction t1 as [|[] t1 IH]; simpl; [done|..]; try done.
  by rewrite IH.
Qed.

Lemma until_node_app t r :
  executed t = [] → until_node (t ++ r) = t ++ until_node r.
Proof.
  induction t as [|[] t IH]; simpl; intros H; try done; by rewrite IH.
Qed.

Lemma segment_skip name t r :
  executed t = [] → segment name (t ++ r) = segment name r.
Proof.
  induction t as [|[] t IH]; simpl; intros H; try done; by rewrite IH.
Qed.

Lemma writes_from_app cur t r :
  executed t = [] →
  writes_from cur (t ++ r) = writes_from cur t ++ writes_from cur r.
Proof.
  induction t as [|[] t IH]; simpl; intros H; try done; by rewrite IH.
Qed.

(** Events after the client calls of a segment do not change its
    outcome. *)
Lemma calls_outcome_app t r last :
  prompts r = [] → queries r = [] →
  calls_outcome (t ++ r) last = calls_outcome t last.
Proof.
  intros Hp Hq. revert last.
  induction t as [|ev t IH]; intros last; simpl.
  - revert last. induction r as [|[] r IHr]; intros last; simpl in *;
      try done; auto.
  - destruct ev as [| ? [] | ? [] | |]; auto.
Qed.

(** ** The nodes, call by call *)

Lemma getitem_Some (state : MeetingState) k v :
  state !! k = Some v → getitem state k = Ok v.
Proof. unfold getitem. by intros ->. Qed.

Lemma getitem_agree (s1 s2 : MeetingState) k :
  s1 !! k = s2 !! k → getitem s1 k = getitem s2 k.
Proof. unfold getitem. by intros ->. Qed.

Ltac red_M :=
  cbv [mbind M_bind bind mret M_ret ret lift emit logger_info logger_error
       try_except search_tool_run llm_content Res_bind Res_ret].

Section Nodes.

Context {W : Type} (search_tool llm : pystr → W → Res pystr * W).

Implicit Types (state : MeetingState) (w : W).

(** What each node does, spelled out along the outcomes of its client
    calls, on a state that holds the keys it reads. *)
Lemma context_analysis_node_eq state w company objective attendees duration :
  state !! "company_name"%string = Some company →
  state !! "meeting_objective"%string = Some objective →
  state !! "attendees"%string = Some attendees →
  state !! "duration"%string = Some duration →
  let query := dquote ++ py_format company ++ dquote ++ context_query_tail in
  let prompt r :=
    context_prompt_head company objective attendees duration
    ++ slice_to 3000 r ++ context_prompt_tail in
  let start := EvLog INFO (log_context_start ++ py_format company) in
  let failed e :=
    ({[ "context_analysis"%string := VStr (context_failure ++ exc_str e) ]} : Update) in
  context_analysis_node W search_tool llm state w =
    match search_tool query w with
    | (Raise e, w1) =>
        (Ok (failed e), w1,
         [start; EvSearch query (Raise e);
          EvLog ERROR (log_context_error ++ exc_str e)])
    | (Ok r, w1) =>
        match llm (prompt r) w1 with
        | (Raise e, w2) =>
            (Ok (failed e), w2,
             [start; EvSearch query (Ok r); EvLLM (prompt r) (Raise e);
              EvLog ERROR (log_context_error ++ exc_str e)])
        | (Ok c, w2) =>
            (Ok {[ "context_analysis"%string := VStr c ]}, w2,
             [start; EvSearch query (Ok r); EvLLM (prompt r) (Ok c);
              EvLog INFO log_context_done])
        end
    end.
Proof.
  intros H1 H2 H3 H4. simpl.
  unfold context_analysis_node, context_query, context_prompt. red_M.
  rewrite !(getitem_Some _ _ _ H1).
  destruct (search_tool _ w) as [[r|e] w1]; [|reflexivity].
  rewrite (getitem_Some _ _ _ H2), (getitem_Some _ _ _ H3),
    (getitem_Some _ _ _ H4).
  destruct (llm _ w1) as [[c|e] w2]; reflexivity.
Qed.

Lemma industry_analysis_node_eq state w company objective :
  state !! "company_name"%string = Some company →
  state !! "meeting_objective"%string = Some objective →
  let query := industry_query_head ++ py_format company ++ squote in
  let prompt r :=
    industry_prompt_head company objective
    ++ slice_to 3000 r ++ industry_prompt_tail in
  let start := EvLog INFO log_industry_start in
  let failed e :=
    ({[ "industry_analysis"%string := VStr (industry_failure ++ exc_str e) ]} : Update) in
  industry_analysis_node W search_tool llm state w =
    match search_tool query w with
    | (Raise e, w1) =>
        (Ok (failed e), w1,
         [start; EvSearch query (Raise e);
          EvLog ERROR (log_industry_error ++ exc_str e)])
    | (Ok r, w1) =>
        match llm (prompt r) w1 with
        | (Raise e, w2) =>
            (Ok (failed e), w2,
             [start; EvSearch query (Ok r); EvLLM (prompt r) (Raise e);
              EvLog ERROR (log_industry_error ++ exc_str e)])
        | (Ok c, w2) =>
            (Ok {[ "industry_analysis"%string := VStr c ]}, w2,
             [start; EvSearch query (Ok r); EvLLM (prompt r) (Ok c);
              EvLog INFO log_industry_done])
        end
    end.
Proof.
  intros H1 H2. simpl.
  unfold industry_analysis_node, industry_query, industry_prompt. red_M.
  rewrite !(getitem_Some _ _ _ H1).
  destruct (search_tool _ w) as [[r|e] w1]; [|reflexivity].
  rewrite (getitem_Some _ _ _ H2).
  destruct (llm _ w1) as [[c|e] w2]; reflexivity.
Qed.

Lemma strategy_development_node_eq state w prompt :
  strategy_prompt state = Ok prompt →
  strategy_development_node W llm state w =
    match llm prompt w with
    | (Raise e, w1) =>
        (Ok {[ "strategy"%string := VStr (strategy_failure ++ exc_str e) ]}, w1,
         [EvLog INFO log_strategy_start; EvLLM prompt (Raise e);
          EvLog ERROR (log_strategy_error ++ exc_str e)])
    | (Ok c, w1) =>
        (Ok {[ "strategy"%string := VStr c ]}, w1,
         [EvLog INFO log_strategy_start; EvLLM prompt (Ok c);
          EvLog INFO log_strategy_done])
    end.
Proof.
  intros Hp. unfold strategy_development_node. red_M. rewrite Hp.
  destruct (llm _ w) as [[c|e] w1]; reflexivity.
Qed.

Lemma executive_brief_node_eq state w prompt :
  brief_prompt state = Ok prompt →
  executive_brief_node W llm state w =
    match llm prompt w with
    | (Raise e, w1) =>
        (Ok {[ "executive_brief"%string := VStr (brief_failure ++ exc_str e) ]}, w1,
         [EvLog INFO log_brief_start; EvLLM prompt (Raise e);
          EvLog ERROR (log_brief_error ++ exc_str e)])
    | (Ok c, w1) =>
        (Ok {[ "executive_brief"%string := VStr c ]}, w1,
         [EvLog INFO log_brief_start; EvLLM prompt (Ok c);
          EvLog INFO log_brief_done])
    end.
Proof.
  intros Hp. unfold executive_brief_node. red_M. rewrite Hp.
  destruct (llm _ w) as [[c|e] w1]; reflexivity.
Qed.

(** On a state with its inputs the two search-free prompts are built
    without a [KeyError]. *)
Lemma strategy_prompt_Ok state :
  has_inputs state → ∃ prompt, strategy_prompt state = Ok prompt.
Proof.
  intros (_ & [o Ho] & [a Ha] & [d Hd]). unfold strategy_prompt.
  rewrite (getitem_Some _ _ _ Hd), (getitem_Some _ _ _ Ho),
    (getitem_Some _ _ _ Ha). simpl. eauto.
Qed.

Lemma brief_prompt_Ok state :
  has_inputs state → ∃ prompt, brief_prompt state = Ok prompt.
Proof.
  intros ([c Hc] & [o Ho] & [a Ha] & [d Hd]). unfold brief_prompt.
  rewrite (getitem_Some _ _ _ Hc), (getitem_Some _ _ _ Ho),
    (getitem_Some _ _ _ Ha), (getitem_Some _ _ _ Hd). simpl. eauto.
Qed.

End Nodes.

(** ** The schema keys of a dictionary *)

Ltac elem_inv H :=
  repeat first
    [ apply elem_of_nil in H; destruct H
    | apply elem_of_cons in H; destruct H as [H|H]; [try discriminate H|] ].

Ltac in_list :=
  repeat first [ apply list_elem_of_here | apply list_elem_of_further ].

Lemma restrict_lookup keys (d : gmap string Value) k :
  restrict keys d !! k = if decide (k ∈ keys) then d !! k else None.
Proof.
  unfold restrict. destruct (decide (k ∈ keys)) as [Hin|Hout].
  - destruct (d !! k) as [v|] eqn:E.
    + by apply map_lookup_filter_Some.
    + apply map_lookup_filter_None. by left.
  - apply map_lookup_filter_None. right. by intros v _.
Qed.

Lemma restrict_lookup_in keys (d : gmap string Value) k :
  k ∈ keys → restrict keys d !! k = d !! k.
Proof. intros H. rewrite restrict_lookup. by destruct (decide (k ∈ keys)). Qed.

Lemma restrict_lookup_out keys (d : gmap string Value) k :
  k ∉ keys → restrict keys d !! k = None.
Proof. intros H. rewrite restrict_lookup. by destruct (decide (k ∈ keys)). Qed.

Lemma restrict_singleton keys k (v : Value) :
  k ∈ keys → restrict keys {[ k := v ]} = {[ k := v ]}.
Proof.
  intros H. apply map_eq. intros i. rewrite restrict_lookup.
  destruct (decide (i ∈ keys)) as [|Hout]; [done|].
  rewrite lookup_singleton_ne; [done|]. by intros ->.
Qed.

Lemma stage_field_in_schema n : stage_field n ∈ MeetingState_keys.
Proof.
  destruct n; simpl;
    repeat first [ apply list_elem_of_here | apply list_elem_of_further ].
Qed.

Lemma input_in_schema k : k ∈ input_fields → k ∈ MeetingState_keys.
Proof.
  intros H. unfold input_fields in H. elem_inv H; subst;
    repeat first [ apply list_elem_of_here | apply list_elem_of_further ].
Qed.

Lemma has_inputs_restrict (state : MeetingState) :
  has_inputs state → has_inputs (restrict MeetingState_keys state).
Proof.
  unfold has_inputs. intros (?&?&?&?).
  rewrite !restrict_lookup_in
    by (apply input_in_schema;
        repeat first [ apply list_elem_of_here | apply list_elem_of_further ]).
  done.
Qed.

Section Stages.

Context {W : Type} (search_tool llm : pystr → W → Res pystr * W).

Implicit Types (state : MeetingState) (w : W).

(** Every stage, run on a state with its inputs, returns a one-key
    update of its own field and raises nothing; its events are log
    records and client calls only. *)
Lemma stage_node_returns n state w :
  has_inputs state →
  ∃ v w' t, stage_ran search_tool llm n state w v w' t.
Proof.
  intros Hin. unfold stage_ran.
  destruct (strategy_prompt_Ok state Hin) as [ps Hps].
  destruct (brief_prompt_Ok state Hin) as [pb Hpb].
  destruct Hin as ([c Hc] & [o Ho] & [a Ha] & [d Hd]).
  destruct n; simpl stage_node.
  - pose proof (context_analysis_node_eq search_tool llm state w _ _ _ _
                  Hc Ho Ha Hd) as E. cbv zeta in E. rewrite E. clear E.
    destruct (search_tool _ w) as [[r|e] w1].
    + destruct (llm _ w1) as [[k|e] w2] eqn:Hl;
        do 3 eexists; (split; [reflexivity|]); repeat split; eauto.
    + do 3 eexists; (split; [reflexivity|]); repeat split; eauto.
  - pose proof (industry_analysis_node_eq search_tool llm state w _ _
                  Hc Ho) as E. cbv zeta in E. rewrite E. clear E.
    destruct (search_tool _ w) as [[r|e] w1].
    + destruct (llm _ w1) as [[k|e] w2] eqn:Hl;
        do 3 eexists; (split; [reflexivity|]); repeat split; eauto.
    + do 3 eexists; (split; [reflexivity|]); repeat split; eauto.
  - rewrite (strategy_development_node_eq llm state w ps Hps).
    destruct (llm _ w) as [[k|e] w2] eqn:Hl;
      do 3 eexists; (split; [reflexivity|]); repeat split; eauto.
  - rewrite (executive_brief_node_eq llm state w pb Hpb).
    destruct (llm _ w) as [[k|e] w2] eqn:Hl;
      do 3 eexists; (split; [reflexivity|]); repeat split; eauto.
Qed.

Lemma has_inputs_update state (upd : Update) :
  has_inputs state → has_inputs (upd ∪ state).
Proof.
  unfold has_inputs. intros (?&?&?&?).
  repeat split; apply lookup_union_is_Some; by right.
Qed.

Lemma run_from_END fuel g state w :
  run_from W fuel g END state w = (Ok state, w, []).
Proof. destruct fuel; reflexivity. Qed.

(** One step of the runner on a node that returned a one-key update. *)
Lemma run_from_step fuel g cur state w fn next k v w1 t :
  String.eqb cur END = false →
  find_node W cur (sg_nodes W g) = Some fn →
  successor cur (sg_edges W g) = Some next →
  k ∈ sg_schema W g →
  fn state w = (Ok {[ k := v ]}, w1, t) →
  run_from W (S fuel) g cur state w =
    match run_from W fuel g next ({[ k := v ]} ∪ state) w1 with
    | (r, w2, t2) => (r, w2, (EvNode cur :: t ++ [EvWrite k v]) ++ t2)
    end.
Proof.
  intros Hcur Hfn Hnext Hk Hrun. simpl. rewrite Hcur, Hfn, Hnext.
  unfold emit_writes. red_M.
  rewrite Hrun, (restrict_singleton _ _ _ Hk), map_to_list_singleton. simpl.
  destruct (run_from W fuel g next _ w1) as [[r w2] t2].
  by rewrite <- !app_assoc.
Qed.

(** The run, stage by stage: each stage starts on the state and in the
    world its predecessor left. *)
Lemma run_chain state w :
  has_inputs state →
  ∃ v1 w1 t1 v2 w2 t2 v3 w3 t3 v4 w4 t4,
    let s0 := restrict MeetingState_keys state in
    let s1 := {[ stage_field Context := VStr v1 ]} ∪ s0 in
    let s2 := {[ stage_field Industry := VStr v2 ]} ∪ s1 in
    let s3 := {[ stage_field Strategy := VStr v3 ]} ∪ s2 in
    let s4 := {[ stage_field Brief := VStr v4 ]} ∪ s3 in
    stage_ran search_tool llm Context s0 w v1 w1 t1
    ∧ stage_ran search_tool llm Industry s1 w1 v2 w2 t2
    ∧ stage_ran search_tool llm Strategy s2 w2 v3 w3 t3
    ∧ stage_ran search_tool llm Brief s3 w3 v4 w4 t4
    ∧ run W search_tool llm state w
      = (Ok s4, w4,
         stage_events Context v1 t1 ++ stage_events Industry v2 t2
         ++ stage_events Strategy v3 t3 ++ stage_events Brief v4 t4).
Proof.
  intros H0. apply has_inputs_restrict in H0.
  destruct (stage_node_returns Context _ w H0) as (v1 & w1 & t1 & R1).
  pose proof (has_inputs_update _ {[ stage_field Context := VStr v1 ]} H0) as H1.
  destruct (stage_node_returns Industry _ w1 H1) as (v2 & w2 & t2 & R2).
  pose proof (has_inputs_update _ {[ stage_field Industry := VStr v2 ]} H1) as H2.
  destruct (stage_node_returns Strategy _ w2 H2) as (v3 & w3 & t3 & R3).
  pose proof (has_inputs_update _ {[ stage_field Strategy := VStr v3 ]} H2) as H3.
  destruct (stage_node_returns Brief _ w3 H3) as (v4 & w4 & t4 & R4).
  exists v1, w1, t1, v2, w2, t2, v3, w3, t3, v4, w4, t4.
  cbv zeta. split_and!; try done.
  set (g := build_workflow W search_tool llm).
  change (run W search_tool llm state w)
    with (run_from W (S 24) g "context" (restrict MeetingState_keys state) w).
  rewrite (run_from_step _ g "context" _ w
             (stage_node search_tool llm Context) "industry" _ _ w1 t1
             eq_refl eq_refl eq_refl (stage_field_in_schema Context)
             (proj1 R1)).
  rewrite (run_from_step _ g "industry" _ w1
             (stage_node search_tool llm Industry) "strategy" _ _ w2 t2
             eq_refl eq_refl eq_refl (stage_field_in_schema Industry)
             (proj1 R2)).
  rewrite (run_from_step _ g "strategy" _ w2
             (stage_node search_tool llm Strategy) "brief" _ _ w3 t3
             eq_refl eq_refl eq_refl (stage_field_in_schema Strategy)
             (proj1 R3)).
  rewrite (run_from_step _ g "brief" _ w3
             (stage_node search_tool llm Brief) END _ _ w4 t4
             eq_refl eq_refl eq_refl (stage_field_in_schema Brief)
             (proj1 R4)).
  rewrite run_from_END. unfold stage_events. by rewrite app_nil_r.
Qed.

End Stages.

(** ** The trace of a run, stage by stage *)

Lemma executed_stage_events n v t rest :
  executed t = [] →
  executed (stage_events n v t ++ rest) = stage_name n :: executed rest.
Proof.
  intros Ht. unfold stage_events. simpl.
  by rewrite !executed_app, Ht.
Qed.

Lemma writes_from_stage_events cur n v t rest :
  executed t = [] → (∀ c, writes_from c t = []) →
  writes_from cur (stage_events n v t ++ rest)
  = (stage_name n, stage_field n) :: writes_from (stage_name n) rest.
Proof.
  intros Ht Hw. unfold stage_events. simpl.
  rewrite <- app_assoc, writes_from_app, Hw by done. done.
Qed.

Lemma segment_stage_events_eq n v t rest :
  executed t = [] →
  segment (stage_name n) (stage_events n v t ++ rest)
  = t ++ EvWrite (stage_field n) (VStr v) :: until_node rest.
Proof.
  intros Ht. unfold stage_events. simpl. rewrite String.eqb_refl.
  rewrite <- app_assoc, until_node_app by done. done.
Qed.

Lemma segment_stage_events_ne n m v t rest :
  n ≠ m → executed t = [] →
  segment (stage_name m) (stage_events n v t ++ rest)
  = segment (stage_name m) rest.
Proof.
  intros Hne Ht. unfold stage_events. simpl.
  replace (String.eqb (stage_name n) (stage_name m)) with false
    by (by destruct n, m).
  rewrite <- app_assoc, segment_skip by done. done.
Qed.

Lemma until_node_stage_events n v t rest :
  until_node (stage_events n v t ++ rest) = [].
Proof. done. Qed.

(** The outcome of a stage read off its segment of the trace. *)
Lemma calls_outcome_segment t k v rest :
  prompts rest = [] → queries rest = [] →
  calls_outcome (t ++ EvWrite k v :: rest) None = calls_outcome t None.
Proof. intros Hp Hq. by apply calls_outcome_app. Qed.

(** ** Lookups in merged states *)

Lemma lookup_update_eq (state : MeetingState) k v :
  ({[ k := v ]} ∪ state) !! k = Some v.
Proof. apply lookup_union_Some_l, lookup_singleton_eq. Qed.

Lemma lookup_update_ne (state : MeetingState) k k' v :
  k ≠ k' → ({[ k := v ]} ∪ state) !! k' = state !! k'.
Proof. intros Hne. apply lookup_union_r. by apply lookup_singleton_ne. Qed.

Lemma stage_failure_marked n :
  ∃ rest, stage_failure n = warning_marker ++ rest.
Proof. destruct n; eexists; reflexivity. Qed.

Lemma stage_failure_nonempty n d : stage_failure n ++ d ≠ [].
Proof. by destruct n. Qed.

Lemma initial_state_has_inputs company objective attendees duration focus now :
  has_inputs (initial_state company objective attendees duration focus now).
Proof.
  repeat split.
  - by exists (VStr company).
  - by exists (VStr objective).
  - by exists (VStr attendees).
  - by exists (VInt duration).
Qed.

(** ** Failure containment *)

Section Run.

Context {W : Type} (search_tool llm : pystr → W → Res pystr * W).

Implicit Types (state : MeetingState) (w : W).

(** C1: on a state with its inputs the run raises nothing and executes
    the four stages; for every stage, if a search or completion call of
    that stage raised, its output field holds the failure placeholder,
    which opens with the warning marker and ends with the error detail,
    and otherwise it holds the content returned by the stage's
    completion call, whatever happened in the other stages. *)
Theorem stage_failures_contained state w :
  has_inputs state →
  ∃ final w' t,
    run W search_tool llm state w = (Ok final, w', t)
    ∧ executed t = ["context"; "industry"; "strategy"; "brief"]%string
    ∧ (∀ n, ∃ rest, stage_failure n = warning_marker ++ rest)
    ∧ ∀ n,
        match stage_outcome (stage_name n) t with
        | Some (Raise e) =>
            final !! stage_field n
            = Some (VStr (stage_failure n ++ exc_str e))
        | Some (Ok content) => final !! stage_field n = Some (VStr content)
        | None => False
        end.
Proof.
  intros Hin.
  destruct (run_chain search_tool llm state w Hin)
    as (v1 & w1 & t1 & v2 & w2 & t2 & v3 & w3 & t3 & v4 & w4 & t4 & R).
  cbv zeta in R.
  destruct R as ((_ & X1 & _ & O1 & _) & (_ & X2 & _ & O2 & _)
                 & (_ & X3 & _ & O3 & _) & (_ & X4 & _ & O4 & _) & Hrun).
  eexists _, _, _. split; [exact Hrun|]. split; [|split].
  - rewrite !executed_stage_events by done.
    rewrite <- (app_nil_r (stage_events Brief v4 t4)).
    by rewrite executed_stage_events.
  - apply stage_failure_marked.
  - rewrite <- (app_nil_r (stage_events Brief v4 t4)).
    intros n. unfold stage_outcome. destruct n.
    + rewrite segment_stage_events_eq, until_node_stage_events by done.
      rewrite calls_outcome_segment by done.
      rewrite !lookup_update_ne, lookup_update_eq by done.
      unfold outcome_matches in O1.
      destruct (calls_outcome t1 None) as [[c|e]|]; by subst.
    + rewrite segment_stage_events_ne by done.
      rewrite segment_stage_events_eq, until_node_stage_events by done.
      rewrite calls_outcome_segment by done.
      rewrite !lookup_update_ne, lookup_update_eq by done.
      unfold outcome_matches in O2.
      destruct (calls_outcome t2 None) as [[c|e]|]; by subst.
    + rewrite !segment_stage_events_ne by done.
      rewrite segment_stage_events_eq, until_node_stage_events by done.
      rewrite calls_outcome_segment by done.
      rewrite !lookup_update_ne, lookup_update_eq by done.
      unfold outcome_matches in O3.
      destruct (calls_outcome t3 None) as [[c|e]|]; by subst.
    + rewrite !segment_stage_events_ne by done.
      rewrite segment_stage_events_eq by done.
      rewrite calls_outcome_segment by done.
      rewrite lookup_update_eq.
      unfold outcome_matches in O4.
      destruct (calls_outcome t4 None) as [[c|e]|]; by subst.
Qed.

(** ** Order of the stages and their outputs *)

(** C2 (amended): on a state with its inputs the run executes exactly
    the four stages, in the order context, industry, strategy, brief,
    and returns a state whose four output fields are strings; they are
    all non-empty provided the completion client never returns an empty
    text. *)
Theorem run_order_and_outputs state w :
  has_inputs state →
  ∃ final w' t,
    run W search_tool llm state w = (Ok final, w', t)
    ∧ executed t = ["context"; "industry"; "strategy"; "brief"]%string
    ∧ ∀ n, ∃ v,
        final !! stage_field n = Some (VStr v)
        ∧ ((∀ p w0 content w1, llm p w0 = (Ok content, w1) → content ≠ []) →
           v ≠ []).
Proof.
  intros Hin.
  destruct (run_chain search_tool llm state w Hin)
    as (v1 & w1 & t1 & v2 & w2 & t2 & v3 & w3 & t3 & v4 & w4 & t4 & R).
  cbv zeta in R.
  destruct R as ((_ & X1 & _ & _ & D1) & (_ & X2 & _ & _ & D2)
                 & (_ & X3 & _ & _ & D3) & (_ & X4 & _ & _ & D4) & Hrun).
  assert (Hv : ∀ n v,
    (∃ e, v = stage_failure n ++ exc_str e)
    ∨ (∃ p w0 w1, llm p w0 = (Ok v, w1)) →
    (∀ p w0 content w1, llm p w0 = (Ok content, w1) → content ≠ []) →
    v ≠ []).
  { intros n v [[e ->]|(p & w0 & w5 & Hl)] Hne.
    - apply stage_failure_nonempty.
    - by apply (Hne p w0 v w5). }
  eexists _, _, _. split; [exact Hrun|]. split.
  - rewrite !executed_stage_events by done.
    rewrite <- (app_nil_r (stage_events Brief v4 t4)).
    by rewrite executed_stage_events.
  - intros n. destruct n.
    + exists v1. rewrite !lookup_update_ne, lookup_update_eq by done. eauto.
    + exists v2. rewrite !lookup_update_ne, lookup_update_eq by done. eauto.
    + exists v3. rewrite !lookup_update_ne, lookup_update_eq by done. eauto.
    + exists v4. rewrite lookup_update_eq. eauto.
Qed.

(** ** Frame: what a stage and a run write *)

Lemma bind_Ok_inv {A B} (m : M W A) (k : A → M W B) w b w' t :
  bind W m k w = (Ok b, w', t) →
  ∃ a w1 t1 t2,
    m w = (Ok a, w1, t1) ∧ k a w1 = (Ok b, w', t2) ∧ t = t1 ++ t2.
Proof.
  unfold bind. destruct (m w) as [[[a|e] w1] t1]; [|done].
  destruct (k a w1) as [[r w2] t2] eqn:Hk. intros [= -> -> <-]. eauto 10.
Qed.

Lemma try_except_Ok_inv {A} (body : M W A) handler w a w' t :
  try_except W body handler w = (Ok a, w', t) →
  body w = (Ok a, w', t)
  ∨ ∃ e w1 t1 t2,
      body w = (Raise e, w1, t1) ∧ handler e w1 = (Ok a, w', t2).
Proof.
  unfold try_except.
  destruct (body w) as [[[a0|e] w1] t1]; [intros [= -> -> ->]; by left|].
  destruct (handler e w1) as [[r w2] t2] eqn:Hh.
  intros [= -> -> <-]. right. eauto 10.
Qed.

Lemma ret_Ok_inv {A} (a b : A) w w' t :
  @ret W A a w = (Ok b, w', t) → a = b.
Proof. by intros [= ->]. Qed.

Ltac inv_M :=
  repeat match goal with
  | H : mbind _ _ _ = (Ok _, _, _) |- _ =>
      apply bind_Ok_inv in H; destruct H as (? & ? & ? & ? & ? & H & ?)
  | H : try_except _ _ _ _ = (Ok _, _, _) |- _ =>
      apply try_except_Ok_inv in H;
      destruct H as [H | (? & ? & ? & ? & ? & H)]
  | H : mret _ _ = (Ok _, _, _) |- _ => apply ret_Ok_inv in H
  end.

(** Whatever the state, an update a node returns has one key, the
    node's own output field. *)
Lemma stage_update_singleton n st w0 upd w1 t0 :
  stage_node search_tool llm n st w0 = (Ok upd, w1, t0) →
  ∃ v, upd = {[ stage_field n := VStr v ]}.
Proof.
  destruct n; simpl;
    unfold context_analysis_node, industry_analysis_node,
      strategy_development_node, executive_brief_node;
    intros H; inv_M; subst; eauto.
Qed.

Lemma not_output_field k :
  k ∉ output_fields → ∀ n, stage_field n ≠ k.
Proof.
  intros Hk n <-. apply Hk. unfold output_fields.
  destruct n; simpl; set_solver.
Qed.

Lemma written_app t1 t2 : written (t1 ++ t2) = written t1 ++ written t2.
Proof.
  induction t1 as [|[] t1 IH]; simpl; [done|..]; try done.
  by rewrite IH.
Qed.

Lemma written_nil cur t : writes_from cur t = [] → written t = [].
Proof.
  revert cur. induction t as [|[] t IH]; intros cur; simpl; try done; eauto.
Qed.

Lemma written_stage_events n v t :
  (∀ cur, writes_from cur t = []) →
  written (stage_events n v t) = [(stage_field n, VStr v)].
Proof.
  intros H. unfold stage_events. simpl.
  by rewrite written_app, (written_nil EmptyString t (H _)).
Qed.

(** C7: a stage's partial update holds its own output field and nothing
    else, so merging it sets that field and leaves every other key as
    it was.  In a run on a state with its inputs the runner writes the
    four output fields once each, in stage order, each by its own
    stage; the final state holds under each output field the value that
    was written, which is the outcome of that stage's calls; and every
    other key of the schema (the inputs, the focus areas, the time
    stamp) has in the final state the value it had at the start, the
    final state having no key outside the schema. *)
Theorem outputs_written_once state w :
  has_inputs state →
  (∀ n st w0 upd w1 t0,
      stage_node search_tool llm n st w0 = (Ok upd, w1, t0) →
      ∃ v, upd = {[ stage_field n := VStr v ]}
           ∧ (upd ∪ st) !! stage_field n = Some (VStr v)
           ∧ ∀ k, k ≠ stage_field n → (upd ∪ st) !! k = st !! k)
  ∧ ∃ final w' t v1 v2 v3 v4,
      run W search_tool llm state w = (Ok final, w', t)
      ∧ writes t
        = [ ("context", "context_analysis"); ("industry", "industry_analysis");
            ("strategy", "strategy"); ("brief", "executive_brief") ]%string
      ∧ written t
        = [ ("context_analysis", VStr v1); ("industry_analysis", VStr v2);
            ("strategy", VStr v3); ("executive_brief", VStr v4) ]%string
      ∧ final !! "context_analysis"%string = Some (VStr v1)
      ∧ final !! "industry_analysis"%string = Some (VStr v2)
      ∧ final !! "strategy"%string = Some (VStr v3)
      ∧ final !! "executive_brief"%string = Some (VStr v4)
      ∧ outcome_matches Context v1 (segment "context" t)
      ∧ outcome_matches Industry v2 (segment "industry" t)
      ∧ outcome_matches Strategy v3 (segment "strategy" t)
      ∧ outcome_matches Brief v4 (segment "brief" t)
      ∧ (∀ k, k ∈ MeetingState_keys → k ∉ output_fields →
              final !! k = state !! k)
      ∧ (∀ k, k ∉ MeetingState_keys → final !! k = None).
Proof.
  intros Hin. split.
  - intros n st w0 upd w1 t0 Hn.
    destruct (stage_update_singleton n st w0 upd w1 t0 Hn) as [v ->].
    exists v. split; [done|]. split; [apply lookup_update_eq|].
    intros k Hk. by apply lookup_update_ne.
  - destruct (run_chain search_tool llm state w Hin)
      as (v1 & w1 & t1 & v2 & w2 & t2 & v3 & w3 & t3 & v4 & w4 & t4 & R).
    cbv zeta in R.
    destruct R as ((_ & X1 & Y1 & O1 & _) & (_ & X2 & Y2 & O2 & _)
                   & (_ & X3 & Y3 & O3 & _) & (_ & X4 & Y4 & O4 & _) & Hrun).
    eexists _, w4, _, v1, v2, v3, v4.
    split; [exact Hrun|].
    change (segment "context"%string) with (segment (stage_name Context)).
    change (segment "industry"%string) with (segment (stage_name Industry)).
    change (segment "strategy"%string) with (segment (stage_name Strategy)).
    change (segment "brief"%string) with (segment (stage_name Brief)).
    rewrite <- (app_nil_r (stage_events Brief v4 t4)).
    unfold outcome_matches in *.
    split_and!.
    + unfold writes. by rewrite !writes_from_stage_events by done.
    + by rewrite !written_app, !written_stage_events by done.
    + by rewrite !lookup_update_ne, lookup_update_eq by done.
    + by rewrite !lookup_update_ne, lookup_update_eq by done.
    + by rewrite !lookup_update_ne, lookup_update_eq by done.
    + by rewrite lookup_update_eq.
    + rewrite segment_stage_events_eq, until_node_stage_events by done.
      by rewrite calls_outcome_segment by done.
    + rewrite segment_stage_events_ne by done.
      rewrite segment_stage_events_eq, until_node_stage_events by done.
      by rewrite calls_outcome_segment by done.
    + rewrite !segment_stage_events_ne by done.
      rewrite segment_stage_events_eq, until_node_stage_events by done.
      by rewrite calls_outcome_segment by done.
    + rewrite !segment_stage_events_ne by done.
      rewrite segment_stage_events_eq by done.
      by rewrite calls_outcome_segment by done.
    + intros k Hk Hnot. pose proof (not_output_field k Hnot) as Hf.
      rewrite !lookup_update_ne by apply Hf. by apply restrict_lookup_in.
    + intros k Hk.
      assert (Hf : ∀ n, stage_field n ≠ k).
      { intros n <-. apply Hk, stage_field_in_schema. }
      rewrite !lookup_update_ne by apply Hf. by apply restrict_lookup_out.
Qed.

End Run.

(** ** Substrings *)

Lemma startswith_spec (x s : pystr) :
  startswith x s = true ↔ ∃ b, s = x ++ b.
Proof.
  revert s. induction x as [|a x IH]; intros s; simpl.
  - split; eauto.
  - destruct s as [|c s]; simpl.
    + split; [done|]. by intros [b Hb].
    + rewrite andb_true_iff, N.eqb_eq, IH. split.
      * intros [-> [b ->]]. eauto.
      * intros [b [= -> ->]]. eauto.
Qed.

Lemma contains_spec (x s : pystr) : contains x s = true ↔ Contains x s.
Proof.
  unfold Contains. induction s as [|c s IH].
  - simpl. rewrite orb_false_r, startswith_spec. split.
    + intros [b Hb]. by exists [], b.
    + intros (a & b & Hab). destruct a; [|done]. eauto.
  - cbn [contains]. rewrite orb_true_iff, startswith_spec, IH. split.
    + intros [[b Hb]|(a & b & ->)]; [by exists [], b|by exists (c :: a), b].
    + intros (a & b & Hab). destruct a as [|c' a].
      * left. eauto.
      * right. injection Hab as -> ->. eauto.
Qed.

Lemma not_contains (x s : pystr) : contains x s = false → ¬ Contains x s.
Proof. intros H Hc. apply contains_spec in Hc. congruence. Qed.

Lemma Contains_here (x b : pystr) : Contains x (x ++ b).
Proof. by exists [], b. Qed.

Lemma Contains_skip (x a s : pystr) : Contains x s → Contains x (a ++ s).
Proof. intros (a' & b & ->). exists (a ++ a'), b. by rewrite <- app_assoc. Qed.

Lemma InOrder_here h hs (b : pystr) : InOrder hs b → InOrder (h :: hs) (h ++ b).
Proof. intros H. by apply (InOrder_cons h hs [] b). Qed.

Lemma InOrder_skip hs (a s : pystr) : InOrder hs s → InOrder hs (a ++ s).
Proof.
  intros H. destruct H as [s|h hs a' b H]; [constructor|].
  rewrite app_assoc. by constructor.
Qed.

(** Walk along a prompt written as a chain of pieces. *)
Ltac find_piece :=
  repeat first [ apply Contains_here | apply Contains_skip ].
Ltac find_pieces :=
  repeat first [ apply InOrder_nil | apply InOrder_here | apply InOrder_skip ].

(** ** Prompts *)

Lemma Ok_inj {A} (a b : A) : Ok a = Ok b → a = b.
Proof. congruence. Qed.

Lemma slice_to_3000 (r : pystr) : slice_to 3000 r = take (Z.to_nat 3000) r.
Proof. reflexivity. Qed.

(** The briefing prompt names the company and the duration and carries
    the four section headers in their order. *)
Lemma brief_prompt_skeleton (state : MeetingState) p company duration :
  state !! "company_name"%string = Some company →
  state !! "duration"%string = Some duration →
  brief_prompt state = Ok p →
  Contains (py_format company) p ∧ Contains (py_format duration) p
  ∧ InOrder [header_summary; header_company; header_market; header_strategy] p.
Proof.
  intros Hc Hd. unfold brief_prompt.
  rewrite (getitem_Some _ _ _ Hc), (getitem_Some _ _ _ Hd).
  destruct (getitem state "meeting_objective") as [o|]; [|done].
  destruct (getitem state "attendees") as [a|]; [|done].
  cbn [mbind Res_bind]. intros Hp. apply Ok_inj in Hp. subst p.
  rewrite !concat_cons, concat_nil.
  split; [find_piece|]. split; [find_piece|find_pieces].
Qed.

Section Prompts.

Context {W : Type} (search_tool llm : pystr → W → Res pystr * W).

Implicit Types (state st : MeetingState) (w : W).

(** C4: in the two stages that search, the prompt handed to the model is
    a text fixed by the state, then the first 3000 characters of the
    search result, then a fixed text; a result of at most 3000
    characters is embedded whole, of a longer one exactly its first
    3000 characters are, so nothing beyond index 3000 reaches the
    prompt. *)
Theorem search_results_truncated state :
  has_inputs state →
  ∃ q1 head1 tail1 q2 head2 tail2,
    (∀ w, queries (context_analysis_node W search_tool llm state w).2 = [q1])
    ∧ (∀ w results w1, search_tool q1 w = (Ok results, w1) →
        prompts (context_analysis_node W search_tool llm state w).2
        = [head1 ++ take (Z.to_nat 3000) results ++ tail1])
    ∧ (∀ w, queries (industry_analysis_node W search_tool llm state w).2 = [q2])
    ∧ (∀ w results w1, search_tool q2 w = (Ok results, w1) →
        prompts (industry_analysis_node W search_tool llm state w).2
        = [head2 ++ take (Z.to_nat 3000) results ++ tail2])
    ∧ ∀ results : pystr,
        (length results ≤ Z.to_nat 3000 →
         take (Z.to_nat 3000) results = results)
        ∧ (Z.to_nat 3000 < length results →
           length (take (Z.to_nat 3000) results) = Z.to_nat 3000
           ∧ ∃ rest, results = take (Z.to_nat 3000) results ++ rest).
Proof.
  intros ([c Hc] & [o Ho] & [a Ha] & [d Hd]).
  exists (dquote ++ py_format c ++ dquote ++ context_query_tail),
    (context_prompt_head c o a d), context_prompt_tail,
    (industry_query_head ++ py_format c ++ squote),
    (industry_prompt_head c o), industry_prompt_tail.
  pose proof (context_analysis_node_eq search_tool llm state) as E1.
  pose proof (industry_analysis_node_eq search_tool llm state) as E2.
  split_and!.
  - intros w. specialize (E1 w _ _ _ _ Hc Ho Ha Hd). cbv zeta in E1.
    rewrite E1. destruct (search_tool _ w) as [[r|e] w1]; [|done].
    by destruct (llm _ w1) as [[k|e] w2].
  - intros w results w1 Hs. specialize (E1 w _ _ _ _ Hc Ho Ha Hd).
    cbv zeta in E1. rewrite E1, Hs, slice_to_3000.
    by destruct (llm _ w1) as [[k|e] w2].
  - intros w. specialize (E2 w _ _ Hc Ho). cbv zeta in E2.
    rewrite E2. destruct (search_tool _ w) as [[r|e] w1]; [|done].
    by destruct (llm _ w1) as [[k|e] w2].
  - intros w results w1 Hs. specialize (E2 w _ _ Hc Ho).
    cbv zeta in E2. rewrite E2, Hs, slice_to_3000.
    by destruct (llm _ w1) as [[k|e] w2].
  - intros results. split.
    + intros Hle. by apply take_ge.
    + intros Hlt. split.
      * rewrite length_take. lia.
      * exists (drop (Z.to_nat 3000) results). by rewrite take_drop.
Qed.

(** C5 (amended): the strategy prompt is a fixed text, the context
    analysis, a fixed text, the industry analysis and a text fixed by
    the inputs.  Each analysis is replaced by the placeholder
    [not_available] when its key is absent from the state; when the key
    is present its value is embedded as it is, the empty string
    included. *)
Theorem strategy_prompt_defaults state :
  has_inputs state →
  ∃ head mid tail,
    ∀ st w,
      (∀ k, k ≠ "context_analysis"%string → k ≠ "industry_analysis"%string →
            st !! k = state !! k) →
      ∃ ctx ind,
        prompts (strategy_development_node W llm st w).2
        = [head ++ ctx ++ mid ++ ind ++ tail]
        ∧ (st !! "context_analysis"%string = None → ctx = not_available)
        ∧ (∀ v, st !! "context_analysis"%string = Some v → ctx = py_format v)
        ∧ (st !! "industry_analysis"%string = None → ind = not_available)
        ∧ (∀ v, st !! "industry_analysis"%string = Some v → ind = py_format v).
Proof.
  intros (_ & [o Ho] & [a Ha] & [d Hd]).
  exists strategy_prompt_head, strategy_prompt_mid, (strategy_prompt_tail d o a).
  intros st w Hag.
  assert (Hp : strategy_prompt st
    = Ok (strategy_prompt_head
          ++ py_format (get_or st "context_analysis" not_available)
          ++ strategy_prompt_mid
          ++ py_format (get_or st "industry_analysis" not_available)
          ++ strategy_prompt_tail d o a)).
  { unfold strategy_prompt.
    rewrite <- (Hag "duration"%string) in Hd by done.
    rewrite <- (Hag "meeting_objective"%string) in Ho by done.
    rewrite <- (Hag "attendees"%string) in Ha by done.
    by rewrite (getitem_Some _ _ _ Hd), (getitem_Some _ _ _ Ho),
      (getitem_Some _ _ _ Ha). }
  rewrite (strategy_development_node_eq llm st w _ Hp).
  eexists _, _. split.
  - destruct (llm _ w) as [[k|e] w1]; reflexivity.
  - unfold get_or. split_and!.
    + by intros ->.
    + by intros v ->.
    + by intros ->.
    + by intros v ->.
Qed.

End Prompts.

(** ** Determinism *)

Section Determinism.

Context {W : Type} (search_tool llm : pystr → W → Res pystr * W).
Hypothesis search_tool_det : deterministic search_tool.
Hypothesis llm_det : deterministic llm.

Lemma wi_ret {A} (a : A) : world_independent (@ret W A a).
Proof. done. Qed.

Lemma wi_lift {A} (r : Res A) : world_independent (@lift W A r).
Proof. done. Qed.

Lemma wi_emit ev : world_independent (@emit W ev).
Proof. done. Qed.

Lemma wi_emit_writes upd : world_independent (emit_writes W upd).
Proof. done. Qed.

Lemma wi_bind {A B} (m : M W A) (k : A → M W B) :
  world_independent m → (∀ a, world_independent (k a)) →
  world_independent (bind W m k).
Proof.
  intros Hm Hk w1 w2. unfold bind.
  destruct (Hm w1 w2) as [Hr Ht].
  destruct (m w1) as [[r1 wa] ta], (m w2) as [[r2 wb] tb].
  simpl in Hr, Ht. subst r2 tb.
  destruct r1 as [a|e]; [|done].
  destruct (Hk a wa wb) as [Hr Ht].
  destruct (k a wa) as [[r1 wc] tc], (k a wb) as [[r2 wd] td].
  simpl in *. by subst.
Qed.

Lemma wi_try_except {A} (body : M W A) handler :
  world_independent body → (∀ e, world_independent (handler e)) →
  world_independent (try_except W body handler).
Proof.
  intros Hm Hk w1 w2. unfold try_except.
  destruct (Hm w1 w2) as [Hr Ht].
  destruct (body w1) as [[r1 wa] ta], (body w2) as [[r2 wb] tb].
  simpl in Hr, Ht. subst r2 tb.
  destruct r1 as [a|e]; [done|].
  destruct (Hk e wa wb) as [Hr Ht].
  destruct (handler e wa) as [[r1 wc] tc], (handler e wb) as [[r2 wd] td].
  simpl in *. by subst.
Qed.

Lemma wi_search query : world_independent (search_tool_run W search_tool query).
Proof.
  intros w1 w2. unfold search_tool_run.
  pose proof (search_tool_det query w1 w2) as H.
  destruct (search_tool query w1), (search_tool query w2).
  simpl in *. by subst.
Qed.

Lemma wi_llm prompt : world_independent (llm_content W llm prompt).
Proof.
  intros w1 w2. unfold llm_content.
  pose proof (llm_det prompt w1 w2) as H.
  destruct (llm prompt w1), (llm prompt w2).
  simpl in *. by subst.
Qed.

Ltac solve_wi :=
  unfold mbind, M_bind, mret, M_ret, logger_info, logger_error;
  repeat first
    [ apply wi_ret | apply wi_lift | apply wi_emit | apply wi_emit_writes
    | apply wi_search | apply wi_llm
    | apply wi_bind; [|intros ?]
    | apply wi_try_except; [|intros ?] ].

Lemma wi_stage_node n state :
  world_independent (stage_node search_tool llm n state).
Proof.
  destruct n; simpl;
    unfold context_analysis_node, industry_analysis_node,
      strategy_development_node, executive_brief_node; solve_wi.
Qed.

Lemma wi_run_from fuel g cur state :
  (∀ name fn st, find_node W name (sg_nodes W g) = Some fn →
                 world_independent (fn st)) →
  world_independent (run_from W fuel g cur state).
Proof.
  intros Hg. revert cur state.
  induction fuel as [|fuel IH]; intros cur state; simpl;
    destruct (String.eqb cur END); try solve_wi.
  destruct (find_node W cur (sg_nodes W g)) as [fn|] eqn:Hfn; [|solve_wi].
  solve_wi; [by apply (Hg cur)|].
  destruct (successor cur (sg_edges W g)); [apply IH|solve_wi].
Qed.

Lemma build_workflow_nodes :
  sg_nodes W (build_workflow W search_tool llm)
  = [ ("context"%string, stage_node search_tool llm Context);
      ("industry"%string, stage_node search_tool llm Industry);
      ("strategy"%string, stage_node search_tool llm Strategy);
      ("brief"%string, stage_node search_tool llm Brief) ].
Proof. reflexivity. Qed.

Lemma wi_run state : world_independent (run W search_tool llm state).
Proof.
  unfold run, invoke. simpl successor. apply wi_run_from.
  intros name fn st. rewrite build_workflow_nodes. cbn [find_node].
  repeat (destruct (String.eqb _ name);
          [intros [= <-];
           first [ apply (wi_stage_node Context)
                 | apply (wi_stage_node Industry)
                 | apply (wi_stage_node Strategy)
                 | apply (wi_stage_node Brief) ]|]).
  done.
Qed.

End Determinism.

(** C8: with clients whose answer depends on their argument only, two
    runs on the same input state end alike, in whatever world each one
    starts: same result, same events, hence the same final state and
    the same value in each of the four output fields. *)
Theorem run_deterministic {W} (search_tool llm : pystr → W → Res pystr * W)
    (state : MeetingState) (w1 w2 : W) :
  deterministic search_tool → deterministic llm →
  (run W search_tool llm state w1).1.1 = (run W search_tool llm state w2).1.1
  ∧ (run W search_tool llm state w1).2 = (run W search_tool llm state w2).2
  ∧ ∀ final1 w1' t1 final2 w2' t2,
      run W search_tool llm state w1 = (Ok final1, w1', t1) →
      run W search_tool llm state w2 = (Ok final2, w2', t2) →
      final1 = final2
      ∧ ∀ n, final1 !! stage_field n = final2 !! stage_field n.
Proof.
  intros Hs Hl.
  destruct (wi_run search_tool llm Hs Hl state w1 w2) as [Hr Ht].
  split; [exact Hr|]. split; [exact Ht|].
  intros final1 w1' t1 final2 w2' t2 E1 E2.
  rewrite E1, E2 in Hr. simpl in Hr.
  assert (final1 = final2) as -> by congruence. done.
Qed.

(** ** The industry stage does not read the context analysis *)

Lemma industry_query_agree (s1 s2 : MeetingState) :
  agree_off "context_analysis" s1 s2 →
  industry_query s1 = industry_query s2.
Proof.
  intros H. unfold industry_query.
  by rewrite (getitem_agree s1 s2 "company_name") by by apply H.
Qed.

Lemma industry_prompt_agree (s1 s2 : MeetingState) r :
  agree_off "context_analysis" s1 s2 →
  industry_prompt s1 r = industry_prompt s2 r.
Proof.
  intros H. unfold industry_prompt.
  rewrite (getitem_agree s1 s2 "company_name") by by apply H.
  by rewrite (getitem_agree s1 s2 "meeting_objective") by by apply H.
Qed.

(** C9: on two states that differ at most in [context_analysis] the
    industry stage behaves alike: same search query, same prompt, same
    update and same events when started in the same world, and the same
    update and events from any two worlds when the clients answer by
    their argument only. *)
Theorem industry_ignores_context {W}
    (search_tool llm : pystr → W → Res pystr * W) (s1 s2 : MeetingState) :
  agree_off "context_analysis" s1 s2 →
  (∀ w, industry_analysis_node W search_tool llm s1 w
        = industry_analysis_node W search_tool llm s2 w)
  ∧ (deterministic search_tool → deterministic llm →
     ∀ w1 w2,
       (industry_analysis_node W search_tool llm s1 w1).1.1
       = (industry_analysis_node W search_tool llm s2 w2).1.1
       ∧ queries (industry_analysis_node W search_tool llm s1 w1).2
         = queries (industry_analysis_node W search_tool llm s2 w2).2
       ∧ prompts (industry_analysis_node W search_tool llm s1 w1).2
         = prompts (industry_analysis_node W search_tool llm s2 w2).2).
Proof.
  intros Hag.
  assert (Heq : ∀ w, industry_analysis_node W search_tool llm s1 w
                     = industry_analysis_node W search_tool llm s2 w).
  { intros w. unfold industry_analysis_node. red_M.
    rewrite (industry_query_agree s1 s2 Hag).
    destruct (industry_query s2) as [q|]; [|reflexivity].
    destruct (search_tool q w) as [[r|e] w1]; [|reflexivity].
    by rewrite (industry_prompt_agree s1 s2 r Hag). }
  split; [exact Heq|].
  intros Hs Hl w1 w2. rewrite (Heq w1).
  destruct (wi_stage_node search_tool llm Hs Hl Industry s2 w1 w2) as [Hr Ht].
  simpl in Hr, Ht. by rewrite Hr, Ht.
Qed.

(** ** The end-to-end scenario *)

Lemma prompts_stage_events n v t : prompts (stage_events n v t) = prompts t.
Proof.
  unfold stage_events. simpl. rewrite prompts_app. simpl. by rewrite app_nil_r.
Qed.

Lemma acme_state_has_inputs : has_inputs acme_state.
Proof. apply initial_state_has_inputs. Qed.

(** C6 (amended): in the scenario (Acme, "Discuss partnership",
    "John - CEO", 60 minutes, no focus areas) with stand-ins that return
    a canned text at each call, the final [executive_brief] is exactly
    the canned text of the completion stand-in; it is the prompt handed
    to the model by the brief stage, the last of the run, that contains
    "Acme", "60" and the four section headers in their order. *)
Theorem scenario_brief (canned_search canned_llm : pystr) :
  ∃ final w t prompt,
    run nat (stub_ok canned_search) (stub_ok canned_llm) acme_state 0
      = (Ok final, w, t)
    ∧ final !! "executive_brief"%string = Some (VStr canned_llm)
    ∧ last (prompts t) = Some prompt
    ∧ Contains (u "Acme") prompt
    ∧ Contains (u "60") prompt
    ∧ InOrder [header_summary; header_company; header_market; header_strategy]
        prompt.
Proof.
  pose proof acme_state_has_inputs as H0.
  destruct (run_chain (stub_ok canned_search) (stub_ok canned_llm)
              acme_state 0 H0)
    as (v1 & w1 & t1 & v2 & w2 & t2 & v3 & w3 & t3 & v4 & w4 & t4 & R).
  cbv zeta in R. destruct R as (_ & _ & _ & (R4 & _) & Hrun).
  set (s3 := {[stage_field Strategy := VStr v3]}
             ∪ ({[stage_field Industry := VStr v2]}
                ∪ ({[stage_field Context := VStr v1]}
                   ∪ restrict MeetingState_keys acme_state))) in *.
  assert (H3 : has_inputs s3)
    by (do 3 apply has_inputs_update; by apply has_inputs_restrict).
  destruct (brief_prompt_Ok s3 H3) as [pb Hpb].
  simpl stage_node in R4.
  rewrite (executive_brief_node_eq (stub_ok canned_llm) s3 w3 pb Hpb) in R4.
  unfold stub_ok at 1 in R4.
  assert (Ht : t4 = [EvLog INFO log_brief_start; EvLLM pb (Ok canned_llm);
                     EvLog INFO log_brief_done]) by congruence.
  assert (Hv : v4 = canned_llm).
  { assert (HU : ({[ "executive_brief"%string := VStr canned_llm ]} : Update)
                 = {[ stage_field Brief := VStr v4 ]}) by congruence.
    apply (f_equal (λ m : Update, m !! "executive_brief"%string)) in HU.
    simpl in HU. rewrite !lookup_singleton_eq in HU. congruence. }
  subst v4 t4.
  assert (Hc : s3 !! "company_name"%string = Some (VStr (u "Acme"))).
  { unfold s3. rewrite !lookup_update_ne by done.
    by rewrite restrict_lookup_in by in_list. }
  assert (Hd : s3 !! "duration"%string = Some (VInt 60)).
  { unfold s3. rewrite !lookup_update_ne by done.
    by rewrite restrict_lookup_in by in_list. }
  destruct (brief_prompt_skeleton s3 pb _ _ Hc Hd Hpb) as (C1 & C2 & C3).
  eexists _, _, _, pb. split; [exact Hrun|]. split_and!.
  - apply lookup_update_eq.
  - rewrite !prompts_app, !prompts_stage_events. simpl prompts at 4.
    rewrite !app_assoc. apply last_snoc.
  - exact C1.
  - exact C2.
  - exact C3.
Qed.

(* ================================================================== *)
(** * Instances on the stand-ins *)
(* ================================================================== *)

Ltac compute_eq := vm_compute; reflexivity.

(** A run whose search tool is out of quota: the two searching stages
    store their placeholder, the two others the completion. *)
Example run_with_failing_search :
  ∃ final w t,
    run nat (stub_raise (u "quota exceeded")) (stub_ok (u "analysis"))
      acme_state 0 = (Ok final, w, t)
    ∧ final !! "context_analysis"%string
      = Some (VStr (u "⚠️ Falha ao analisar o contexto da empresa: quota exceeded"))
    ∧ final !! "industry_analysis"%string
      = Some (VStr (u "⚠️ Falha ao analisar a indústria: quota exceeded"))
    ∧ final !! "strategy"%string = Some (VStr (u "analysis"))
    ∧ final !! "executive_brief"%string = Some (VStr (u "analysis"))
    ∧ final !! "company_name"%string = Some (VStr (u "Acme"))
    ∧ executed t = ["context"; "industry"; "strategy"; "brief"]%string.
Proof. eexists _, _, _. repeat split; compute_eq. Qed.

(** A state without [company_name]: the first node raises outside its
    [try], and the run with it. *)
Example run_without_company_name :
  (run nat (stub_ok (u "results")) (stub_ok (u "analysis")) ∅ 0).1.1
  = Raise (KeyError "company_name").
Proof. compute_eq. Qed.

Lemma run_order_and_outputs_counterexample :
  has_inputs acme_state
  ∧ ∃ final w t,
      run nat (stub_ok (u "search results")) (stub_ok []) acme_state 0
        = (Ok final, w, t)
      ∧ final !! "executive_brief"%string = Some (VStr []).
Proof.
  split; [repeat split; eexists; reflexivity|].
  eexists _, _, _. split; [compute_eq|compute_eq].
Qed.

Lemma strategy_prompt_defaults_counterexample :
  acme_state !! "context_analysis"%string = Some (VStr [])
  ∧ acme_state !! "industry_analysis"%string = Some (VStr [])
  ∧ ∃ prompt,
      prompts (strategy_development_node nat (stub_ok (u "plan")) acme_state 0).2
        = [prompt]
      ∧ ¬ Contains not_available prompt.
Proof.
  split; [compute_eq|]. split; [compute_eq|].
  eexists. split; [compute_eq|].
  apply not_contains. compute_eq.
Qed.

Lemma scenario_brief_counterexample :
  ∃ final w t brief,
    run nat (stub_ok (u "search results")) (stub_ok (u "canned text"))
      acme_state 0 = (Ok final, w, t)
    ∧ final !! "executive_brief"%string = Some (VStr brief)
    ∧ ¬ Contains (u "Acme") brief.
Proof.
  eexists _, _, _, _. split; [compute_eq|]. split; [compute_eq|].
  apply not_contains. compute_eq.
Qed.

Lemma stage_failures_contained_witness :
  has_inputs acme_state
  ∧ ∃ final w' t,
      run nat (stub_raise (u "quota exceeded")) (stub_ok (u "analysis"))
        acme_state 0 = (Ok final, w', t)
      ∧ executed t = ["context"; "industry"; "strategy"; "brief"]%string
      ∧ (∀ n, ∃ rest, stage_failure n = warning_marker ++ rest)
      ∧ ∀ n,
          match stage_outcome (stage_name n) t with
          | Some (Raise e) =>
              final !! stage_field n
              = Some (VStr (stage_failure n ++ exc_str e))
          | Some (Ok content) => final !! stage_field n = Some (VStr content)
          | None => False
          end.
Proof.
  assert (H : has_inputs acme_state) by (repeat split; eexists; reflexivity).
  split; [exact H|].
  exact (stage_failures_contained (stub_raise (u "quota exceeded"))
           (stub_ok (u "analysis")) acme_state 0 H).
Defined.

Lemma run_order_and_outputs_witness :
  has_inputs acme_state
  ∧ (∀ p w0 content w1,
       stub_ok (u "analysis") p w0 = (Ok content, w1) → content ≠ [])
  ∧ ∃ final w' t,
      run nat (stub_raise (u "quota exceeded")) (stub_ok (u "analysis"))
        acme_state 0 = (Ok final, w', t)
      ∧ executed t = ["context"; "industry"; "strategy"; "brief"]%string
      ∧ ∀ n, ∃ v, final !! stage_field n = Some (VStr v) ∧ v ≠ [].
Proof.
  assert (H : has_inputs acme_state) by (repeat split; eexists; reflexivity).
  assert (Hne : ∀ p w0 content w1,
             stub_ok (u "analysis") p w0 = (Ok content, w1) → content ≠ []).
  { intros p w0 content w1 E. unfold stub_ok in E.
    injection E as <- _. discriminate. }
  split; [exact H|]. split; [exact Hne|].
  destruct (run_order_and_outputs (stub_raise (u "quota exceeded"))
              (stub_ok (u "analysis")) acme_state 0 H)
    as (final & w' & t & Hrun & Hex & Hall).
  exists final, w', t. split; [exact Hrun|]. split; [exact Hex|].
  intros n. destruct (Hall n) as (v & Hv & Hnev).
  exists v. split; [exact Hv|exact (Hnev Hne)].
Defined.

Lemma search_results_truncated_witness :
  has_inputs acme_state
  ∧ ∃ q1 head1 tail1 q2 head2 tail2,
      (∀ w, queries (context_analysis_node nat (stub_ok (u "results"))
                       (stub_ok (u "analysis")) acme_state w).2 = [q1])
      ∧ (∀ w results w1, stub_ok (u "results") q1 w = (Ok results, w1) →
          prompts (context_analysis_node nat (stub_ok (u "results"))
                     (stub_ok (u "analysis")) acme_state w).2
          = [head1 ++ take (Z.to_nat 3000) results ++ tail1])
      ∧ (∀ w, queries (industry_analysis_node nat (stub_ok (u "results"))
                         (stub_ok (u "analysis")) acme_state w).2 = [q2])
      ∧ (∀ w results w1, stub_ok (u "results") q2 w = (Ok results, w1) →
          prompts (industry_analysis_node nat (stub_ok (u "results"))
                     (stub_ok (u "analysis")) acme_state w).2
          = [head2 ++ take (Z.to_nat 3000) results ++ tail2])
      ∧ ∀ results : pystr,
          (length results ≤ Z.to_nat 3000 →
           take (Z.to_nat 3000) results = results)
          ∧ (Z.to_nat 3000 < length results →
             length (take (Z.to_nat 3000) results) = Z.to_nat 3000
             ∧ ∃ rest, results = take (Z.to_nat 3000) results ++ rest).
Proof.
  assert (H : has_inputs acme_state) by (repeat split; eexists; reflexivity).
  split; [exact H|].
  exact (search_results_truncated (stub_ok (u "results"))
           (stub_ok (u "analysis")) acme_state H).
Defined.

Lemma strategy_prompt_defaults_witness :
  has_inputs acme_state
  ∧ ∃ head mid tail,
      ∀ st w,
        (∀ k, k ≠ "context_analysis"%string → k ≠ "industry_analysis"%string →
              st !! k = acme_state !! k) →
        ∃ ctx ind,
          prompts (strategy_development_node nat (stub_ok (u "plan")) st w).2
          = [head ++ ctx ++ mid ++ ind ++ tail]
          ∧ (st !! "context_analysis"%string = None → ctx = not_available)
          ∧ (∀ v, st !! "context_analysis"%string = Some v → ctx = py_format v)
          ∧ (st !! "industry_analysis"%string = None → ind = not_available)
          ∧ (∀ v, st !! "industry_analysis"%string = Some v → ind = py_format v).
Proof.
  assert (H : has_inputs acme_state) by (repeat split; eexists; reflexivity).
  split; [exact H|].
  exact (strategy_prompt_defaults (stub_ok (u "plan")) acme_state H).
Defined.

Lemma outputs_written_once_witness :
  has_inputs acme_state
  ∧ (∀ n st w0 upd w1 t0,
        stage_node (stub_ok (u "results")) (stub_raise (u "timeout")) n st w0
        = (Ok upd, w1, t0) →
        ∃ v, upd = {[ stage_field n := VStr v ]}
             ∧ (upd ∪ st) !! stage_field n = Some (VStr v)
             ∧ ∀ k, k ≠ stage_field n → (upd ∪ st) !! k = st !! k)
  ∧ ∃ final w' t v1 v2 v3 v4,
      run nat (stub_ok (u "results")) (stub_raise (u "timeout")) acme_state 0
        = (Ok final, w', t)
      ∧ writes t
        = [ ("context", "context_analysis"); ("industry", "industry_analysis");
            ("strategy", "strategy"); ("brief", "executive_brief") ]%string
      ∧ written t
        = [ ("context_analysis", VStr v1); ("industry_analysis", VStr v2);
            ("strategy", VStr v3); ("executive_brief", VStr v4) ]%string
      ∧ final !! "context_analysis"%string = Some (VStr v1)
      ∧ final !! "industry_analysis"%string = Some (VStr v2)
      ∧ final !! "strategy"%string = Some (VStr v3)
      ∧ final !! "executive_brief"%string = Some (VStr v4)
      ∧ outcome_matches Context v1 (segment "context" t)
      ∧ outcome_matches Industry v2 (segment "industry" t)
      ∧ outcome_matches Strategy v3 (segment "strategy" t)
      ∧ outcome_matches Brief v4 (segment "brief" t)
      ∧ (∀ k, k ∈ MeetingState_keys → k ∉ output_fields →
              final !! k = acme_state !! k)
      ∧ (∀ k, k ∉ MeetingState_keys → final !! k = None).
Proof.
  assert (H : has_inputs acme_state) by (repeat split; eexists; reflexivity).
  split; [exact H|].
  exact (outputs_written_once (stub_ok (u "results"))
           (stub_raise (u "timeout")) acme_state 0 H).
Defined.

Lemma run_deterministic_witness :
  deterministic (stub_ok (u "results"))
  ∧ deterministic (stub_ok (u "analysis"))
  ∧ (run nat (stub_ok (u "results")) (stub_ok (u "analysis")) acme_state 0).1.1
    = (run nat (stub_ok (u "results")) (stub_ok (u "analysis")) acme_state 7).1.1
  ∧ (run nat (stub_ok (u "results")) (stub_ok (u "analysis")) acme_state 0).2
    = (run nat (stub_ok (u "results")) (stub_ok (u "analysis")) acme_state 7).2
  ∧ ∀ final1 w1' t1 final2 w2' t2,
      run nat (stub_ok (u "results")) (stub_ok (u "analysis")) acme_state 0
        = (Ok final1, w1', t1) →
      run nat (stub_ok (u "results")) (stub_ok (u "analysis")) acme_state 7
        = (Ok final2, w2', t2) →
      final1 = final2
      ∧ ∀ n, final1 !! stage_field n = final2 !! stage_field n.
Proof.
  assert (H1 : deterministic (stub_ok (u "results")))
    by (intros x w1 w2; reflexivity).
  assert (H2 : deterministic (stub_ok (u "analysis")))
    by (intros x w1 w2; reflexivity).
  split; [exact H1|]. split; [exact H2|].
  exact (run_deterministic (stub_ok (u "results")) (stub_ok (u "analysis"))
           acme_state 0 7 H1 H2).
Defined.

Lemma industry_ignores_context_witness :
  agree_off "context_analysis" acme_state
    (<[ "context_analysis"%string := VStr (u "earlier analysis") ]> acme_state)
  ∧ (∀ w, industry_analysis_node nat (stub_ok (u "results"))
            (stub_ok (u "analysis")) acme_state w
          = industry_analysis_node nat (stub_ok (u "results"))
              (stub_ok (u "analysis"))
              (<[ "context_analysis"%string := VStr (u "earlier analysis") ]>
                 acme_state) w)
  ∧ (deterministic (stub_ok (u "results")) →
     deterministic (stub_ok (u "analysis")) →
     ∀ w1 w2,
       (industry_analysis_node nat (stub_ok (u "results"))
          (stub_ok (u "analysis")) acme_state w1).1.1
       = (industry_analysis_node nat (stub_ok (u "results"))
            (stub_ok (u "analysis"))
            (<[ "context_analysis"%string := VStr (u "earlier analysis") ]>
               acme_state) w2).1.1
       ∧ queries (industry_analysis_node nat (stub_ok (u "results"))
                    (stub_ok (u "analysis")) acme_state w1).2
         = queries (industry_analysis_node nat (stub_ok (u "results"))
                      (stub_ok (u "analysis"))
                      (<[ "context_analysis"%string := VStr (u "earlier analysis") ]>
                         acme_state) w2).2
       ∧ prompts (industry_analysis_node nat (stub_ok (u "results"))
                    (stub_ok (u "analysis")) acme_state w1).2
         = prompts (industry_analysis_node nat (stub_ok (u "results"))
                      (stub_ok (u "analysis"))
                      (<[ "context_analysis"%string := VStr (u "earlier analysis") ]>
                         acme_state) w2).2).
Proof.
  assert (H : agree_off "context_analysis" acme_state
                (<[ "context_analysis"%string := VStr (u "earlier analysis") ]>
                   acme_state)).
  { intros k Hk. symmetry. apply lookup_insert_ne. congruence. }
  split; [exact H|].
  exact (industry_ignores_context (stub_ok (u "results"))
           (stub_ok (u "analysis")) acme_state _ H).
Defined.

(* ================================================================== *)
(** * Further properties of the nodes, the run and the entry point *)
(* ================================================================== *)

(** ** Validation *)

Lemma blank_strip (s : pystr) : blank (strip s) ↔ blank s.
Proof.
  split.
  - intros Hb. apply strip_nil_iff.
    unfold strip, rstrip in *.
    destruct (lstrip (rev (lstrip s))) as [|c r] eqn:E; [done|].
    apply lstrip_head in E. exfalso.
    apply (proj1 (blank_rev _)) in Hb. apply Forall_inv in Hb.
    simpl in Hb. congruence.
  - intros Hb. apply strip_nil_iff in Hb. rewrite Hb. constructor.
Qed.

Lemma validate_inputs_error_truthy company objective attendees msg :
  validate_inputs company objective attendees = Some msg → truthy msg = true.
Proof.
  unfold validate_inputs. repeat case_match; by intros [= <-].
Qed.

(** ** The four nodes follow the skeleton *)

Section Skeleton.

Context {W : Type} (search_tool llm : pystr → W → Res pystr * W).

Implicit Types (state : MeetingState) (w : W).

Lemma stage_node_model n state w :
  stage_node search_tool llm n state w
  = stage_model search_tool llm n state w.
Proof.
  unfold stage_model, stage_complete, stage_failed.
  destruct n; simpl;
    unfold context_analysis_node, industry_analysis_node,
      strategy_development_node, executive_brief_node; red_M.
  - destruct (getitem state "company_name") as [c|e]; [|reflexivity].
    simpl. destruct (context_query state) as [q|e]; [|reflexivity].
    destruct (search_tool q w) as [[r|e] w1]; [|reflexivity].
    destruct (context_prompt state r) as [p|e]; [|reflexivity].
    destruct (llm p w1) as [[k|e] w2]; reflexivity.
  - destruct (industry_query state) as [q|e]; [|reflexivity].
    destruct (search_tool q w) as [[r|e] w1]; [|reflexivity].
    destruct (industry_prompt state r) as [p|e]; [|reflexivity].
    destruct (llm p w1) as [[k|e] w2]; reflexivity.
  - destruct (strategy_prompt state) as [p|e]; [|reflexivity].
    destruct (llm p w) as [[k|e] w2]; reflexivity.
  - destruct (brief_prompt state) as [p|e]; [|reflexivity].
    destruct (llm p w) as [[k|e] w2]; reflexivity.
Qed.

End Skeleton.

(** ** More on validation *)

Lemma truthy_strip_strip (s : pystr) :
  truthy (strip (strip s)) = truthy (strip s).
Proof.
  destruct (truthy (strip s)) eqn:E.
  - destruct (truthy (strip (strip s))) eqn:E2; [done|].
    apply (proj1 (truthy_false _)) in E2.
    apply (proj1 (strip_nil_iff _)) in E2.
    apply (proj1 (blank_strip _)) in E2.
    apply (proj2 (strip_nil_iff _)) in E2.
    rewrite E2 in E. done.
  - apply truthy_false in E. rewrite E. done.
Qed.

(** X1: surrounding white space in the objective and in the attendee
    list does not matter to validation: stripping them first gives the
    same answer. *)
Theorem validate_inputs_strip company objective attendees :
  validate_inputs company (strip objective) (strip attendees)
  = validate_inputs company objective attendees.
Proof.
  unfold validate_inputs. by rewrite !truthy_strip_strip.
Qed.

(** X2: the minimum-length error is returned exactly when the company
    name is one single character that is not white space and the two
    other strings are not blank. *)
Theorem validate_inputs_min_length company objective attendees :
  validate_inputs company objective attendees = Some err_company_min_length
  ↔ (∃ c, company = [c] ∧ isspace c = false)
    ∧ ¬ blank objective ∧ ¬ blank attendees.
Proof.
  destruct (validate_inputs_cases company objective attendees)
    as [(Hc&E)|[(Hc&Ho&E)|[(Hc&Ho&Ha&E)|[(Hc&Ho&Ha&Hl&E)|(Hc&Ho&Ha&Hl&E)]]]];
    rewrite E; split; try discriminate.
  - intros ((c & -> & Hs) & _). apply Forall_inv in Hc. simpl in Hc. congruence.
  - intros (_ & Hno & _). done.
  - intros (_ & _ & Hna). done.
  - intros _. split; [|done].
    destruct company as [|c [|c' r]].
    + destruct Hc. constructor.
    + exists c. split; [done|].
      destruct (isspace c) eqn:Hs; [|done].
      destruct Hc. by repeat constructor.
    + unfold len in Hl. simpl in Hl. lia.
  - done.
  - intros ((c & -> & _) & _). unfold len in Hl. simpl in Hl. lia.
Qed.

(** ** Every stage, on every state *)

Section AnyState.

Context {W : Type} (search_tool llm : pystr → W → Res pystr * W).

Implicit Types (state : MeetingState) (w : W).

Ltac stage_cases :=
  rewrite ?stage_node_model;
  unfold stage_model, stage_complete, stage_failed;
  repeat case_match; simplify_eq; simpl.

(** Totality of the nodes, state by state. *)
Lemma stage_total n state w :
  (n = Context ∧ state !! "company_name"%string = None
   ∧ stage_node search_tool llm n state w
     = (Raise (KeyError "company_name"), w, []))
  ∨ ((n ≠ Context ∨ is_Some (state !! "company_name"%string))
     ∧ ∃ v w' t,
         stage_node search_tool llm n state w
         = (Ok {[ stage_field n := VStr v ]}, w', t)).
Proof.
  rewrite stage_node_model.
  destruct n.
  - unfold stage_model, stage_log_start, getitem.
    destruct (state !! "company_name"%string) as [c|] eqn:Hc.
    + right. split; [by right|]. simpl.
      unfold stage_complete, stage_failed. repeat case_match; eauto.
    + left. done.
  - right. split; [by left|].
    unfold stage_model, stage_complete, stage_failed.
    repeat case_match; simplify_eq; eauto.
  - right. split; [by left|].
    unfold stage_model, stage_complete, stage_failed.
    repeat case_match; simplify_eq; eauto.
  - right. split; [by left|].
    unfold stage_model, stage_complete, stage_failed.
    repeat case_match; simplify_eq; eauto.
Qed.

(** X3: the industry, strategy and brief nodes return normally on every
    state, whatever keys it lacks, and so does the context node when
    [company_name] is present; without that key the context node raises
    the [KeyError] of its start record, before any call or log. *)
Theorem stage_node_total n state w :
  (n = Context ∧ state !! "company_name"%string = None
   ∧ stage_node search_tool llm n state w
     = (Raise (KeyError "company_name"), w, []))
  ∨ ((n ≠ Context ∨ is_Some (state !! "company_name"%string))
     ∧ ∃ v w' t,
         stage_node search_tool llm n state w
         = (Ok {[ stage_field n := VStr v ]}, w', t)).
Proof. apply stage_total. Qed.

(** A node emits no runner event. *)
Lemma stage_calls_events n state w :
  executed (stage_node search_tool llm n state w).2 = []
  ∧ writes (stage_node search_tool llm n state w).2 = [].
Proof. by stage_cases. Qed.

(** X4: a stage calls the search tool at most once and the model at most
    once; the strategy and brief stages never search; a stage whose
    search raised does not call the model; and a node emits no runner
    event. *)
Theorem stage_calls_bounded n state w :
  length (queries (stage_node search_tool llm n state w).2) ≤ 1
  ∧ length (prompts (stage_node search_tool llm n state w).2) ≤ 1
  ∧ (n = Strategy ∨ n = Brief →
     queries (stage_node search_tool llm n state w).2 = [])
  ∧ (∀ q e, EvSearch q (Raise e) ∈ (stage_node search_tool llm n state w).2 →
            prompts (stage_node search_tool llm n state w).2 = [])
  ∧ executed (stage_node search_tool llm n state w).2 = []
  ∧ writes (stage_node search_tool llm n state w).2 = [].
Proof.
  stage_cases; split_and!; try lia; try done;
    try (intros [|]; by subst);
    try (intros q' e' Hin; by elem_inv Hin).
Qed.

(** X5: what a node logs.  A node that returns the completion content
    ends on the INFO record of its stage and logs no error; a node that
    returns a placeholder ends on an ERROR record with the very detail
    the placeholder carries; a node that raises has logged nothing. *)
Theorem stage_logged n state w :
  match stage_node search_tool llm n state w with
  | (Ok upd, _, t) =>
      (∃ content p,
          upd = {[ stage_field n := VStr content ]}
          ∧ EvLLM p (Ok content) ∈ t
          ∧ last t = Some (EvLog INFO (stage_log_done n))
          ∧ ∀ msg, EvLog ERROR msg ∉ t)
      ∨ (∃ e,
          upd = {[ stage_field n := VStr (stage_failure n ++ exc_str e) ]}
          ∧ last t = Some (EvLog ERROR (stage_log_error n ++ exc_str e)))
  | (Raise _, _, t) => t = []
  end.
Proof.
  stage_cases; try done;
    first
      [ right; eexists; split; reflexivity
      | left; eexists _, _; split_and!;
        [ reflexivity
        | repeat first [ apply list_elem_of_here | apply list_elem_of_further ]
        | reflexivity
        | intros msg Hin; by elem_inv Hin ] ].
Qed.

End AnyState.

(** ** Missing keys and the keys a stage reads *)

Lemma getitem_None (state : MeetingState) k :
  state !! k = None → getitem state k = Raise (KeyError k).
Proof. unfold getitem. by intros ->. Qed.

(** With a subscripted key missing, the prompt of a stage is never
    built: a [KeyError] of a missing key is raised instead. *)
Lemma stage_prompt_missing n (state : MeetingState) results k :
  k ∈ stage_subscripts n → state !! k = None →
  ∃ k', stage_prompt n state results = Raise (KeyError k')
        ∧ state !! k' = None.
Proof.
  intros Hk Hnone.
  destruct n; simpl in *;
    unfold context_prompt, industry_prompt, strategy_prompt, brief_prompt,
      getitem;
    repeat (match goal with
            | |- context [ state !! ?key ] =>
                destruct (state !! key) eqn:?; simpl; [|by eauto]
            end);
    elem_inv Hk; congruence.
Qed.

Section Reads.

Context {W : Type} (search_tool llm : pystr → W → Res pystr * W).

Implicit Types (state : MeetingState) (w : W).

(** X6: a stage run on a state that lacks one of the keys it reads by
    subscript never calls the model; what it stores is a failure
    placeholder, whose detail is the [KeyError] of a missing key unless
    the search call raised first. *)
Theorem stage_missing_key n state w k :
  k ∈ stage_subscripts n → state !! k = None →
  is_Some (state !! "company_name"%string) ∨ n ≠ Context →
  ∃ e w' t,
    stage_node search_tool llm n state w
    = (Ok {[ stage_field n := VStr (stage_failure n ++ exc_str e) ]}, w', t)
    ∧ prompts t = []
    ∧ ((∃ k', e = KeyError k' ∧ state !! k' = None)
       ∨ (∃ q, EvSearch q (Raise e) ∈ t)).
Proof.
  intros Hk Hnone Hc.
  assert (Hp : ∀ r, ∃ k', stage_prompt n state r = Raise (KeyError k')
                          ∧ state !! k' = None)
    by (intros r; by apply (stage_prompt_missing n state r k)).
  assert (Hstart : ∃ start, stage_log_start n state = Ok start).
  { destruct n; simpl; eauto. destruct Hc as [Hs|Hn]; [|done].
    destruct Hs as [c Hs]. rewrite (getitem_Some _ _ _ Hs). simpl. eauto. }
  destruct Hstart as [start Hstart].
  rewrite stage_node_model. unfold stage_model. rewrite Hstart.
  destruct (stage_query n state) as [[q|e]|] eqn:Hq.
  - destruct (search_tool q w) as [[r|e] w1].
    + destruct (Hp r) as (k' & -> & Hk'). simpl.
      eexists _, _, _. split; [reflexivity|]. split; [done|]. left. eauto.
    + eexists _, _, _. split; [reflexivity|]. split; [done|].
      right. exists q. simpl.
      repeat first [ apply list_elem_of_here | apply list_elem_of_further ].
  - eexists _, _, _. split; [reflexivity|]. split; [done|]. left.
    destruct n; simpl in Hq; simplify_eq.
    + unfold context_query, getitem in Hq.
      destruct (state !! "company_name"%string) eqn:E; simpl in Hq;
        simplify_eq. eauto.
    + unfold industry_query, getitem in Hq.
      destruct (state !! "company_name"%string) eqn:E; simpl in Hq;
        simplify_eq. eauto.
  - destruct (Hp []) as (k' & -> & Hk'). simpl.
    eexists _, _, _. split; [reflexivity|]. split; [done|]. left. eauto.
Qed.

Lemma get_or_agree (s1 s2 : MeetingState) k d :
  s1 !! k = s2 !! k → get_or s1 k d = get_or s2 k d.
Proof. unfold get_or. by intros ->. Qed.

Ltac use_agree H s1 s2 :=
  repeat match goal with
  | |- context [ getitem s1 ?k ] =>
      rewrite (getitem_agree s1 s2 k) by (apply H; compute_done)
  | |- context [ get_or s1 ?k ?d ] =>
      rewrite (get_or_agree s1 s2 k d) by (apply H; compute_done)
  end.

Lemma stage_model_agree n (s1 s2 : MeetingState) :
  agree_on (stage_reads n) s1 s2 →
  stage_log_start n s1 = stage_log_start n s2
  ∧ stage_query n s1 = stage_query n s2
  ∧ ∀ r, stage_prompt n s1 r = stage_prompt n s2 r.
Proof.
  intros H. destruct n; simpl in H; simpl; split_and!; try done; try intros r;
    unfold context_query, industry_query, context_prompt, industry_prompt,
      strategy_prompt, brief_prompt;
    use_agree H s1 s2; reflexivity.
Qed.

Lemma stage_node_agree n (s1 s2 : MeetingState) w :
  agree_on (stage_reads n) s1 s2 →
  stage_node search_tool llm n s1 w = stage_node search_tool llm n s2 w.
Proof.
  intros H. rewrite !stage_node_model. unfold stage_model.
  destruct (stage_model_agree n s1 s2 H) as [-> [-> Hp]].
  destruct (stage_log_start n s2); [|done].
  destruct (stage_query n s2) as [[q|]|]; [|done|by rewrite Hp].
  destruct (search_tool q w) as [[r|] w1]; [|done]. by rewrite Hp.
Qed.

(** X7: a stage behaves alike on two states that agree on the keys it
    reads.  No stage reads its own output field or that of a later
    stage, nor [focus_areas], nor [timestamp]: what the user types as
    focus areas never reaches a query or a prompt. *)
Theorem stage_reads_only :
  (∀ n s1 s2 w,
      agree_on (stage_reads n) s1 s2 →
      stage_node search_tool llm n s1 w = stage_node search_tool llm n s2 w)
  ∧ (∀ n m, stage_index n ≤ stage_index m → stage_field m ∉ stage_reads n)
  ∧ (∀ n, ("focus_areas"%string ∉ stage_reads n)
          ∧ ("timestamp"%string ∉ stage_reads n)).
Proof.
  split_and!.
  - intros n s1 s2 w H. by apply stage_node_agree.
  - intros n m Hle. destruct n, m; simpl in Hle; try lia; compute_done.
  - intros n. destruct n; split; compute_done.
Qed.

End Reads.

(** ** The run, on every state *)

Lemma queries_app t1 t2 : queries (t1 ++ t2) = queries t1 ++ queries t2.
Proof.
  induction t1 as [|[] t1 IH]; simpl; [done|..]; try done.
  by rewrite IH.
Qed.

Lemma queries_stage_events n v t : queries (stage_events n v t) = queries t.
Proof.
  unfold stage_events. simpl. rewrite queries_app. simpl. by rewrite app_nil_r.
Qed.

Lemma writes_from_nil cur cur' t :
  writes_from cur t = [] → writes_from cur' t = [].
Proof.
  revert cur cur'. induction t as [|[] t IH]; intros cur cur'; simpl;
    try done; eauto.
Qed.

Lemma agree_on_update keys (s1 s2 : MeetingState) k v :
  agree_on keys s1 s2 →
  agree_on (k :: keys) ({[ k := v ]} ∪ s1) ({[ k := v ]} ∪ s2).
Proof.
  intros H k' Hk'. destruct (decide (k = k')) as [<-|Hne].
  - by rewrite !lookup_update_eq.
  - rewrite !lookup_update_ne by done. apply H.
    apply elem_of_cons in Hk' as [->|Hk']; [done|exact Hk'].
Qed.

Lemma agree_on_subset keys keys' (s1 s2 : MeetingState) :
  agree_on keys s1 s2 → (∀ k, k ∈ keys' → k ∈ keys) → agree_on keys' s1 s2.
Proof. intros H Hsub k Hk. apply H, Hsub, Hk. Qed.

Section RunAny.

Context {W : Type} (search_tool llm : pystr → W → Res pystr * W).

Implicit Types (state : MeetingState) (w : W).

Lemma stage_no_runner_events n state w r w' t :
  stage_node search_tool llm n state w = (r, w', t) →
  executed t = [] ∧ ∀ cur, writes_from cur t = [].
Proof.
  intros E.
  destruct (stage_calls_events search_tool llm n state w) as [He Hw].
  rewrite E in He, Hw. simpl in He, Hw. split; [done|].
  intros cur. by apply (writes_from_nil EmptyString).
Qed.

(** The runner stops at the first node that raises. *)
Lemma run_from_raise fuel g cur state w fn e w1 t :
  String.eqb cur END = false →
  find_node W cur (sg_nodes W g) = Some fn →
  fn state w = (Raise e, w1, t) →
  run_from W (S fuel) g cur state w = (Raise e, w1, EvNode cur :: t).
Proof.
  intros Hcur Hfn Hrun. simpl. rewrite Hcur, Hfn. red_M. by rewrite Hrun.
Qed.

(** The run assembled from its four stages. *)
Lemma run_of_stages state w v1 w1 t1 v2 w2 t2 v3 w3 t3 v4 w4 t4 :
  let s0 := restrict MeetingState_keys state in
  let s1 := {[ stage_field Context := VStr v1 ]} ∪ s0 in
  let s2 := {[ stage_field Industry := VStr v2 ]} ∪ s1 in
  let s3 := {[ stage_field Strategy := VStr v3 ]} ∪ s2 in
  let s4 := {[ stage_field Brief := VStr v4 ]} ∪ s3 in
  stage_node search_tool llm Context s0 w
    = (Ok {[ stage_field Context := VStr v1 ]}, w1, t1) →
  stage_node search_tool llm Industry s1 w1
    = (Ok {[ stage_field Industry := VStr v2 ]}, w2, t2) →
  stage_node search_tool llm Strategy s2 w2
    = (Ok {[ stage_field Strategy := VStr v3 ]}, w3, t3) →
  stage_node search_tool llm Brief s3 w3
    = (Ok {[ stage_field Brief := VStr v4 ]}, w4, t4) →
  run W search_tool llm state w
  = (Ok s4, w4,
     stage_events Context v1 t1 ++ stage_events Industry v2 t2
     ++ stage_events Strategy v3 t3 ++ stage_events Brief v4 t4).
Proof.
  intros s0 s1 s2 s3 s4 R1 R2 R3 R4.
  set (g := build_workflow W search_tool llm).
  change (run W search_tool llm state w)
    with (run_from W (S 24) g "context" s0 w).
  rewrite (run_from_step _ g "context" s0 w
             (stage_node search_tool llm Context) "industry" _ _ w1 t1
             eq_refl eq_refl eq_refl (stage_field_in_schema Context) R1).
  rewrite (run_from_step _ g "industry" _ w1
             (stage_node search_tool llm Industry) "strategy" _ _ w2 t2
             eq_refl eq_refl eq_refl (stage_field_in_schema Industry) R2).
  rewrite (run_from_step _ g "strategy" _ w2
             (stage_node search_tool llm Strategy) "brief" _ _ w3 t3
             eq_refl eq_refl eq_refl (stage_field_in_schema Strategy) R3).
  rewrite (run_from_step _ g "brief" _ w3
             (stage_node search_tool llm Brief) END _ _ w4 t4
             eq_refl eq_refl eq_refl (stage_field_in_schema Brief) R4).
  rewrite run_from_END. unfold stage_events. by rewrite app_nil_r.
Qed.

Lemma has_company_update state (upd : Update) :
  is_Some (state !! "company_name"%string) →
  is_Some ((upd ∪ state) !! "company_name"%string).
Proof. intros H. apply lookup_union_is_Some. by right. Qed.

Lemma stage_returns n state w :
  n ≠ Context ∨ is_Some (state !! "company_name"%string) →
  ∃ v w' t,
    stage_node search_tool llm n state w
    = (Ok {[ stage_field n := VStr v ]}, w', t).
Proof.
  intros H.
  destruct (stage_total search_tool llm n state w)
    as [(-> & Hnone & _)|(_ & Hok)]; [|done].
  destruct H as [H|[c Hc]]; [done|congruence].
Qed.

(** With [company_name] present every stage returns, and the run is
    their chain. *)
Lemma run_chain_any state w :
  is_Some (state !! "company_name"%string) →
  ∃ v1 w1 t1 v2 w2 t2 v3 w3 t3 v4 w4 t4,
    let s0 := restrict MeetingState_keys state in
    let s1 := {[ stage_field Context := VStr v1 ]} ∪ s0 in
    let s2 := {[ stage_field Industry := VStr v2 ]} ∪ s1 in
    let s3 := {[ stage_field Strategy := VStr v3 ]} ∪ s2 in
    let s4 := {[ stage_field Brief := VStr v4 ]} ∪ s3 in
    stage_node search_tool llm Context s0 w
      = (Ok {[ stage_field Context := VStr v1 ]}, w1, t1)
    ∧ stage_node search_tool llm Industry s1 w1
      = (Ok {[ stage_field Industry := VStr v2 ]}, w2, t2)
    ∧ stage_node search_tool llm Strategy s2 w2
      = (Ok {[ stage_field Strategy := VStr v3 ]}, w3, t3)
    ∧ stage_node search_tool llm Brief s3 w3
      = (Ok {[ stage_field Brief := VStr v4 ]}, w4, t4)
    ∧ run W search_tool llm state w
      = (Ok s4, w4,
         stage_events Context v1 t1 ++ stage_events Industry v2 t2
         ++ stage_events Strategy v3 t3 ++ stage_events Brief v4 t4).
Proof.
  intros Hc.
  assert (Hi : Industry ≠ Context) by done.
  assert (Hs : Strategy ≠ Context) by done.
  assert (Hb : Brief ≠ Context) by done.
  set (s0 := restrict MeetingState_keys state).
  assert (Hc0 : is_Some (s0 !! "company_name"%string)).
  { unfold s0. by rewrite restrict_lookup_in by in_list. }
  destruct (stage_returns Context s0 w (or_intror Hc0))
    as (v1 & w1 & t1 & R1).
  destruct (stage_returns Industry
              ({[ stage_field Context := VStr v1 ]} ∪ s0) w1
              (or_introl Hi))
    as (v2 & w2 & t2 & R2).
  destruct (stage_returns Strategy
              ({[ stage_field Industry := VStr v2 ]}
               ∪ ({[ stage_field Context := VStr v1 ]} ∪ s0)) w2
              (or_introl Hs))
    as (v3 & w3 & t3 & R3).
  destruct (stage_returns Brief
              ({[ stage_field Strategy := VStr v3 ]}
               ∪ ({[ stage_field Industry := VStr v2 ]}
                  ∪ ({[ stage_field Context := VStr v1 ]} ∪ s0))) w3
              (or_introl Hb))
    as (v4 & w4 & t4 & R4).
  exists v1, w1, t1, v2, w2, t2, v3, w3, t3, v4, w4, t4. cbv zeta.
  split_and!; try done.
  exact (run_of_stages state w v1 w1 t1 v2 w2 t2 v3 w3 t3 v4 w4 t4 R1 R2 R3 R4).
Qed.

End RunAny.

Section RunProperties.

Context {W : Type} (search_tool llm : pystr → W → Res pystr * W).

Implicit Types (state : MeetingState) (w : W).

Lemma executed_run_trace v1 t1 v2 t2 v3 t3 v4 t4 :
  executed t1 = [] → executed t2 = [] → executed t3 = [] → executed t4 = [] →
  executed (stage_events Context v1 t1 ++ stage_events Industry v2 t2
            ++ stage_events Strategy v3 t3 ++ stage_events Brief v4 t4)
  = ["context"; "industry"; "strategy"; "brief"]%string.
Proof.
  intros X1 X2 X3 X4. rewrite !executed_stage_events by done.
  rewrite <- (app_nil_r (stage_events Brief v4 t4)).
  by rewrite executed_stage_events.
Qed.

(** The two outcomes of a run. *)
Lemma run_returns_cases state w :
  (state !! "company_name"%string = None
   ∧ run W search_tool llm state w
     = (Raise (KeyError "company_name"), w, [EvNode "context"]))
  ∨ (is_Some (state !! "company_name"%string)
     ∧ ∃ final w' t,
         run W search_tool llm state w = (Ok final, w', t)
         ∧ executed t = ["context"; "industry"; "strategy"; "brief"]%string).
Proof.
  destruct (state !! "company_name"%string) as [c|] eqn:Hc.
  - right. split; [by eexists|].
    destruct (run_chain_any search_tool llm state w)
      as (v1 & w1 & t1 & v2 & w2 & t2 & v3 & w3 & t3 & v4 & w4 & t4 & R);
      [by eexists|].
    cbv zeta in R. destruct R as (R1 & R2 & R3 & R4 & Hrun).
    eexists _, _, _. split; [exact Hrun|].
    apply executed_run_trace;
      eapply stage_no_runner_events; eassumption.
  - left. split; [done|].
    change (run W search_tool llm state w)
      with (run_from W (S 24) (build_workflow W search_tool llm)
              "context" (restrict MeetingState_keys state) w).
    apply (run_from_raise _ (build_workflow W search_tool llm) "context"
             _ w (stage_node search_tool llm Context));
      [done|done|].
    assert (Hc0 : restrict MeetingState_keys state !! "company_name"%string
                  = None)
      by (by rewrite restrict_lookup_in by in_list).
    rewrite stage_node_model. unfold stage_model. simpl.
    by rewrite (getitem_None _ _ Hc0).
Qed.

(** X8: the run raises exactly when [company_name] is missing from the
    state.  Without it the run stops in the first node with the
    [KeyError], before any client call, and leaves the world as it was;
    with it the run returns a final state after the four stages, even
    when other inputs are missing. *)
Theorem run_returns_iff state w :
  (state !! "company_name"%string = None
   ∧ run W search_tool llm state w
     = (Raise (KeyError "company_name"), w, [EvNode "context"]))
  ∨ (is_Some (state !! "company_name"%string)
     ∧ ∃ final w' t,
         run W search_tool llm state w = (Ok final, w', t)
         ∧ executed t = ["context"; "industry"; "strategy"; "brief"]%string).
Proof. apply run_returns_cases. Qed.

(** The calls of a stage on a state with its inputs. *)
Lemma stage_calls_valid n state w company :
  has_inputs state →
  state !! "company_name"%string = Some company →
  queries (stage_node search_tool llm n state w).2
  = match n with
    | Context => [dquote ++ py_format company ++ dquote ++ context_query_tail]
    | Industry => [industry_query_head ++ py_format company ++ squote]
    | Strategy | Brief => []
    end
  ∧ length (prompts (stage_node search_tool llm n state w).2) ≤ 1
  ∧ (n = Strategy ∨ n = Brief →
     length (prompts (stage_node search_tool llm n state w).2) = 1).
Proof.
  intros Hin Hc.
  destruct (strategy_prompt_Ok state Hin) as [ps Hps].
  destruct (brief_prompt_Ok state Hin) as [pb Hpb].
  destruct Hin as (_ & [o Ho] & [a Ha] & [d Hd]).
  destruct n; simpl stage_node.
  - pose proof (context_analysis_node_eq search_tool llm state w _ _ _ _
                  Hc Ho Ha Hd) as E. cbv zeta in E. rewrite E. clear E.
    destruct (search_tool _ w) as [[r|e] w1];
      [destruct (llm _ w1) as [[k|e] w2]|]; simpl;
      (split_and!; [done|lia|by intros [|]]).
  - pose proof (industry_analysis_node_eq search_tool llm state w _ _
                  Hc Ho) as E. cbv zeta in E. rewrite E. clear E.
    destruct (search_tool _ w) as [[r|e] w1];
      [destruct (llm _ w1) as [[k|e] w2]|]; simpl;
      (split_and!; [done|lia|by intros [|]]).
  - rewrite (strategy_development_node_eq llm state w ps Hps).
    destruct (llm _ w) as [[k|e] w2]; simpl; split_and!; done || lia.
  - rewrite (executive_brief_node_eq llm state w pb Hpb).
    destruct (llm _ w) as [[k|e] w2]; simpl; split_and!; done || lia.
Qed.

(** X9: a run on a state with its inputs makes exactly two search
    calls, with the two queries built from the company name, whether or
    not the first one fails, and between two and four completion
    calls. *)
Theorem run_calls_bounded state w company :
  has_inputs state →
  state !! "company_name"%string = Some company →
  queries (run W search_tool llm state w).2
  = [ dquote ++ py_format company ++ dquote ++ context_query_tail;
      industry_query_head ++ py_format company ++ squote ]
  ∧ 2 ≤ length (prompts (run W search_tool llm state w).2) ≤ 4.
Proof.
  intros H0 Hc.
  destruct (run_chain_any search_tool llm state w)
    as (v1 & w1 & t1 & v2 & w2 & t2 & v3 & w3 & t3 & v4 & w4 & t4 & R);
    [by eexists|].
  cbv zeta in R. destruct R as (R1 & R2 & R3 & R4 & Hrun).
  apply has_inputs_restrict in H0.
  assert (Hc0 : restrict MeetingState_keys state !! "company_name"%string
                = Some company)
    by (by rewrite restrict_lookup_in by in_list).
  pose proof (has_inputs_update _ {[ stage_field Context := VStr v1 ]} H0)
    as H1.
  pose proof (has_inputs_update _ {[ stage_field Industry := VStr v2 ]} H1)
    as H2.
  pose proof (has_inputs_update _ {[ stage_field Strategy := VStr v3 ]} H2)
    as H3.
  pose proof (stage_calls_valid Context _ w company H0 Hc0) as (Q1 & P1 & _).
  pose proof (stage_calls_valid Industry _ w1 company H1) as (Q2 & P2 & _).
  { by rewrite lookup_update_ne. }
  pose proof (stage_calls_valid Strategy _ w2 company H2) as (Q3 & _ & P3).
  { by rewrite !lookup_update_ne. }
  pose proof (stage_calls_valid Brief _ w3 company H3) as (Q4 & _ & P4).
  { by rewrite !lookup_update_ne. }
  rewrite R1 in Q1, P1. rewrite R2 in Q2, P2.
  rewrite R3 in Q3, P3. rewrite R4 in Q4, P4.
  cbn [snd] in Q1, P1, Q2, P2, Q3, P3, Q4, P4.
  rewrite Hrun. cbn [snd].
  rewrite !queries_app, !queries_stage_events, Q1, Q2, Q3, Q4.
  rewrite !prompts_app, !prompts_stage_events, !length_app.
  split; [done|]. specialize (P3 (or_introl eq_refl)).
  specialize (P4 (or_intror eq_refl)). lia.
Qed.

End RunProperties.

(** ** What a run depends on *)

Section RunInputs.

Context {W : Type} (search_tool llm : pystr → W → Res pystr * W).

Implicit Types (state : MeetingState) (w : W).

Ltac lookup_updates :=
  repeat first [ rewrite lookup_update_eq
               | rewrite lookup_update_ne by done ].

Ltac keys_included :=
  let k := fresh "k" in let Hk := fresh "Hk" in
  intros k Hk; simpl in Hk; elem_inv Hk; subst;
  repeat first [ apply list_elem_of_here | apply list_elem_of_further ].

Lemma run_agree (s1 s2 : MeetingState) w :
  agree_on input_fields s1 s2 →
  (run W search_tool llm s1 w).1.2 = (run W search_tool llm s2 w).1.2
  ∧ (run W search_tool llm s1 w).2 = (run W search_tool llm s2 w).2
  ∧ match (run W search_tool llm s1 w).1.1,
          (run W search_tool llm s2 w).1.1 with
    | Ok final1, Ok final2 =>
        (∀ k, k ∈ output_fields → final1 !! k = final2 !! k)
        ∧ (∀ k, k ∈ MeetingState_keys → k ∉ output_fields →
                final1 !! k = s1 !! k ∧ final2 !! k = s2 !! k)
        ∧ (∀ k, k ∉ MeetingState_keys →
                final1 !! k = None ∧ final2 !! k = None)
    | Raise e1, Raise e2 => e1 = e2
    | _, _ => False
    end.
Proof.
  intros A0.
  pose proof (A0 "company_name"%string ltac:(compute_done)) as Hcc.
  destruct (run_returns_cases search_tool llm s1 w) as [[H1 E1]|[H1 _]].
  { destruct (run_returns_cases search_tool llm s2 w) as [[H2 E2]|[[c H2] _]];
      [|congruence].
    rewrite E1, E2. done. }
  destruct (run_chain_any search_tool llm s1 w H1)
    as (v1 & w1 & t1 & v2 & w2 & t2 & v3 & w3 & t3 & v4 & w4 & t4 & R).
  cbv zeta in R. destruct R as (R1 & R2 & R3 & R4 & Hrun).
  set (r1 := restrict MeetingState_keys s1) in *.
  set (r2 := restrict MeetingState_keys s2).
  assert (Ar : agree_on input_fields r1 r2).
  { intros k Hk. unfold r1, r2.
    rewrite !restrict_lookup_in by (by apply input_in_schema). by apply A0. }
  pose proof (agree_on_update _ _ _ (stage_field Context) (VStr v1) Ar) as A1.
  pose proof (agree_on_update _ _ _ (stage_field Industry) (VStr v2) A1) as A2.
  pose proof (agree_on_update _ _ _ (stage_field Strategy) (VStr v3) A2) as A3.
  assert (B1 : agree_on (stage_reads Context) r1 r2)
    by (apply (agree_on_subset _ _ _ _ Ar); keys_included).
  assert (B2 : agree_on (stage_reads Industry)
                 ({[ stage_field Context := VStr v1 ]} ∪ r1)
                 ({[ stage_field Context := VStr v1 ]} ∪ r2))
    by (apply (agree_on_subset _ _ _ _ A1); keys_included).
  assert (B3 : agree_on (stage_reads Strategy)
                 ({[ stage_field Industry := VStr v2 ]}
                  ∪ ({[ stage_field Context := VStr v1 ]} ∪ r1))
                 ({[ stage_field Industry := VStr v2 ]}
                  ∪ ({[ stage_field Context := VStr v1 ]} ∪ r2)))
    by (apply (agree_on_subset _ _ _ _ A2); keys_included).
  assert (B4 : agree_on (stage_reads Brief)
                 ({[ stage_field Strategy := VStr v3 ]}
                  ∪ ({[ stage_field Industry := VStr v2 ]}
                     ∪ ({[ stage_field Context := VStr v1 ]} ∪ r1)))
                 ({[ stage_field Strategy := VStr v3 ]}
                  ∪ ({[ stage_field Industry := VStr v2 ]}
                     ∪ ({[ stage_field Context := VStr v1 ]} ∪ r2))))
    by (apply (agree_on_subset _ _ _ _ A3); keys_included).
  rewrite (stage_node_agree search_tool llm Context _ _ w B1) in R1.
  rewrite (stage_node_agree search_tool llm Industry _ _ w1 B2) in R2.
  rewrite (stage_node_agree search_tool llm Strategy _ _ w2 B3) in R3.
  rewrite (stage_node_agree search_tool llm Brief _ _ w3 B4) in R4.
  rewrite Hrun.
  rewrite (run_of_stages search_tool llm s2 w v1 w1 t1 v2 w2 t2 v3 w3 t3
             v4 w4 t4 R1 R2 R3 R4).
  cbn [fst snd]. split_and!; try done.
  - intros k Hk. unfold output_fields in Hk. elem_inv Hk; subst;
      simpl; by lookup_updates.
  - intros k Hs Hk. pose proof (not_output_field k Hk) as Hf.
    rewrite !lookup_update_ne by apply Hf. unfold r1, r2.
    by rewrite !restrict_lookup_in by done.
  - intros k Hs.
    assert (Hf : ∀ n, stage_field n ≠ k).
    { intros n <-. apply Hs, stage_field_in_schema. }
    rewrite !lookup_update_ne by apply Hf. unfold r1, r2.
    by rewrite !restrict_lookup_out by done.
Qed.


(** X11: running the pipeline again on its own final state, with
    clients that answer by their argument only, changes nothing: the
    second run returns the same state after the same events. *)
Theorem run_again state w :
  deterministic search_tool → deterministic llm →
  is_Some (state !! "company_name"%string) →
  ∃ final w1 t w2,
    run W search_tool llm state w = (Ok final, w1, t)
    ∧ run W search_tool llm final w1 = (Ok final, w2, t).
Proof.
  intros Hs Hl Hc.
  destruct (run_returns_cases search_tool llm state w)
    as [[Hn _]|[_ (final & w1 & t & Hrun & _)]].
  { destruct Hc as [c Hc]. congruence. }
  exists final, w1, t.
  destruct (wi_run search_tool llm Hs Hl state w w1) as [Hr Ht].
  rewrite Hrun in Hr, Ht. cbn [fst snd] in Hr, Ht.
  assert (A : agree_on input_fields state final).
  { intros k Hk.
    destruct (run_agree state state w (λ _ _, eq_refl)) as (_ & _ & Hf).
    rewrite Hrun in Hf. cbn [fst snd] in Hf. destruct Hf as (_ & Hf & _).
    symmetry. apply Hf; [by apply input_in_schema|].
    unfold input_fields in Hk. unfold output_fields.
    elem_inv Hk; subst; compute_done. }
  destruct (run_agree state final w1 A) as (Hw & Htr & Hf).
  destruct (run W search_tool llm state w1) as [[r1 wa] ta].
  destruct (run W search_tool llm final w1) as [[r2 wb] tb].
  cbn [fst snd] in *. subst r1 ta tb wb.
  destruct r2 as [final2|]; [|done]. destruct Hf as (Hout & Hrest & Hnone).
  exists wa. split; [done|]. f_equal. f_equal. f_equal.
  apply map_eq. intros k.
  destruct (decide (k ∈ output_fields)) as [Hk|Hk].
  - symmetry. by apply Hout.
  - destruct (decide (k ∈ MeetingState_keys)) as [Hm|Hm].
    + by destruct (Hrest k Hm Hk) as [_ ->].
    + by destruct (Hnone k Hm) as [-> ->].
Qed.

End RunInputs.

(** ** What flows from stage to stage *)

(** The briefing prompt embeds the three analyses it reads. *)
Lemma brief_prompt_embeds (state : MeetingState) p :
  brief_prompt state = Ok p →
  Contains (py_format (get_or state "context_analysis" not_available)) p
  ∧ Contains (py_format (get_or state "industry_analysis" not_available)) p
  ∧ Contains (py_format (get_or state "strategy" not_available)) p.
Proof.
  unfold brief_prompt.
  destruct (getitem state "company_name") as [c|]; [|done].
  destruct (getitem state "meeting_objective") as [o|]; [|done].
  destruct (getitem state "attendees") as [a|]; [|done].
  destruct (getitem state "duration") as [d|]; [|done].
  cbn [mbind Res_bind]. intros Hp. apply Ok_inj in Hp. subst p.
  rewrite !concat_cons, concat_nil.
  split_and!; find_piece.
Qed.

Section DataFlow.

Context {W : Type} (search_tool llm : pystr → W → Res pystr * W).

Implicit Types (state : MeetingState) (w : W).

Lemma strategy_prompts state w p :
  strategy_prompt state = Ok p →
  prompts (stage_node search_tool llm Strategy state w).2 = [p].
Proof.
  intros Hp. simpl stage_node.
  rewrite (strategy_development_node_eq llm state w p Hp).
  by destruct (llm p w) as [[k|e] w1].
Qed.

Lemma brief_prompts state w p :
  brief_prompt state = Ok p →
  prompts (stage_node search_tool llm Brief state w).2 = [p].
Proof.
  intros Hp. simpl stage_node.
  rewrite (executive_brief_node_eq llm state w p Hp).
  by destruct (llm p w) as [[k|e] w1].
Qed.

(** X12: what a stage stores is what the later stages read.  In a run
    on a state with its inputs, the strategy prompt carries the final
    [context_analysis] and [industry_analysis] between its fixed texts,
    and the briefing prompt contains the final [context_analysis],
    [industry_analysis] and [strategy], be they completions or failure
    placeholders; the "not available" default is never the text used. *)
Theorem run_data_flow state w :
  has_inputs state →
  ∃ final w' t v1 v2 v3 tail p4,
    run W search_tool llm state w = (Ok final, w', t)
    ∧ final !! "context_analysis"%string = Some (VStr v1)
    ∧ final !! "industry_analysis"%string = Some (VStr v2)
    ∧ final !! "strategy"%string = Some (VStr v3)
    ∧ prompts (segment "strategy" t)
      = [strategy_prompt_head ++ v1 ++ strategy_prompt_mid ++ v2 ++ tail]
    ∧ prompts (segment "brief" t) = [p4]
    ∧ Contains v1 p4 ∧ Contains v2 p4 ∧ Contains v3 p4.
Proof.
  intros H0.
  destruct (run_chain_any search_tool llm state w)
    as (v1 & w1 & t1 & v2 & w2 & t2 & v3 & w3 & t3 & v4 & w4 & t4 & R);
    [apply H0|].
  cbv zeta in R. destruct R as (R1 & R2 & R3 & R4 & Hrun).
  destruct (stage_no_runner_events _ _ _ _ _ _ _ _ R1) as [X1 _].
  destruct (stage_no_runner_events _ _ _ _ _ _ _ _ R2) as [X2 _].
  destruct (stage_no_runner_events _ _ _ _ _ _ _ _ R3) as [X3 _].
  destruct (stage_no_runner_events _ _ _ _ _ _ _ _ R4) as [X4 _].
  set (s0 := restrict MeetingState_keys state) in *.
  set (s1 := {[ stage_field Context := VStr v1 ]} ∪ s0) in *.
  set (s2 := {[ stage_field Industry := VStr v2 ]} ∪ s1) in *.
  set (s3 := {[ stage_field Strategy := VStr v3 ]} ∪ s2) in *.
  assert (Hr0 : has_inputs s0) by (by apply has_inputs_restrict).
  assert (H2 : has_inputs s2) by (by do 2 apply has_inputs_update).
  assert (H3 : has_inputs s3) by (by apply has_inputs_update).
  destruct H2 as (_ & [o Ho] & [a Ha] & [d Hd]).
  assert (Hps : strategy_prompt s2
    = Ok (strategy_prompt_head ++ v1 ++ strategy_prompt_mid ++ v2
          ++ strategy_prompt_tail d o a)).
  { unfold strategy_prompt, get_or.
    rewrite (getitem_Some _ _ _ Hd), (getitem_Some _ _ _ Ho),
      (getitem_Some _ _ _ Ha).
    cbn [mbind Res_bind]. unfold s2, s1. simpl stage_field.
    repeat first [ rewrite lookup_update_eq
                 | rewrite lookup_update_ne by done ].
    done. }
  destruct (brief_prompt_Ok s3 H3) as [p4 Hp4].
  destruct (brief_prompt_embeds s3 p4 Hp4) as (C1 & C2 & C3).
  unfold get_or, s3, s2, s1 in C1, C2, C3. simpl stage_field in C1, C2, C3.
  rewrite !lookup_update_ne, lookup_update_eq in C1 by done.
  rewrite lookup_update_ne, lookup_update_eq in C2 by done.
  rewrite lookup_update_eq in C3.
  pose proof (strategy_prompts s2 w2 _ Hps) as P3. rewrite R3 in P3.
  pose proof (brief_prompts s3 w3 _ Hp4) as P4. rewrite R4 in P4.
  cbn [snd] in P3, P4.
  eexists _, _, _, v1, v2, v3, _, p4. split; [exact Hrun|].
  rewrite <- (app_nil_r (stage_events Brief v4 t4)).
  change "strategy"%string with (stage_name Strategy).
  change "brief"%string with (stage_name Brief).
  rewrite !segment_stage_events_ne by done.
  rewrite !segment_stage_events_eq by done.
  rewrite !segment_stage_events_ne by done.
  rewrite !segment_stage_events_eq by done.
  rewrite until_node_stage_events. simpl until_node.
  rewrite !prompts_app, P3, P4. simpl.
  split_and!; try done; unfold s3, s2, s1; simpl stage_field;
    repeat first [ rewrite lookup_update_eq
                 | rewrite lookup_update_ne by done ]; done.
Qed.

End DataFlow.

(** ** The button handler *)

Section Handler.

Context {W : Type} (search_tool llm : pystr → W → Res pystr * W).
Context (lower : pystr → pystr).

Implicit Types (w : W).

(** X13: when validation fails the handler shows the warning built from
    the error and does nothing else: no state is built, no client is
    called, the world is left as it was. *)
Theorem on_click_rejected company objective attendees duration focus now
    langsmith w msg :
  validate_inputs company objective attendees = Some msg →
  on_click W search_tool llm lower company objective attendees duration
    focus now langsmith w
  = ([StWarning (u "⚠️ " ++ msg)], w, []).
Proof.
  intros H. unfold on_click. rewrite H.
  by rewrite (validate_inputs_error_truthy _ _ _ _ H).
Qed.

(** X14: when validation passes the handler always ends on the success
    path, whatever the clients do and with or without tracing: the run
    on the initial state returns, and the page shows the two progress
    steps, the success banner, the rule, the final [executive_brief],
    the download button carrying that same text under the briefing file
    name, and the cleared progress bar; the error branch is never
    taken and nothing is logged beyond the run's own events. *)
Theorem on_click_shows_brief company objective attendees duration focus now
    langsmith w :
  validate_inputs company objective attendees = None →
  ∃ final w' t brief,
    run W search_tool llm
      (initial_state company objective attendees duration focus now) w
    = (Ok final, w', t)
    ∧ final !! "executive_brief"%string = Some (VStr brief)
    ∧ on_click W search_tool llm lower company objective attendees duration
        focus now langsmith w
      = ([ StProgress 0 (u "Iniciando análise...");
           StProgress 100 (u "Briefing finalizado!");
           StSuccess (u "✅ **Briefing preparado com sucesso!**");
           StMarkdown (u "---");
           StMarkdown brief;
           StDownloadButton (u "📥 Download do Briefing (MD)") brief
             (briefing_file_name lower company) (u "text/markdown");
           StProgressEmpty ], w', t).
Proof.
  intros H.
  set (state := initial_state company objective attendees duration focus now).
  assert (Hc : is_Some (state !! "company_name"%string))
    by apply initial_state_has_inputs.
  destruct (run_chain_any search_tool llm state w Hc)
    as (v1 & w1 & t1 & v2 & w2 & t2 & v3 & w3 & t3 & v4 & w4 & t4 & R).
  cbv zeta in R. destruct R as (_ & _ & _ & _ & Hrun).
  eexists _, w4, _, v4. split; [exact Hrun|]. split.
  - apply lookup_update_eq.
  - unfold on_click. rewrite H. cbv zeta. fold state.
    assert (Hif : (if langsmith
                   then run W search_tool llm state w
                   else run W search_tool llm state w)
                  = run W search_tool llm state w) by (by destruct langsmith).
    rewrite Hif, Hrun.
    rewrite (getitem_Some _ "executive_brief" (VStr v4))
      by apply lookup_update_eq.
    reflexivity.
Qed.

End Handler.

(** X15: the download file name is "briefing_", the lowered company
    name with every space turned into an underscore and every other
    character kept in place, then ".md"; it never contains a space. *)
Theorem briefing_file_name_shape (lower : pystr → pystr) (company : pystr) :
  (∀ c, c ∈ briefing_file_name lower company → c ≠ space)
  ∧ length (briefing_file_name lower company) = 12 + length (lower company)
  ∧ (∀ i c, lower company !! i = Some c →
       briefing_file_name lower company !! (9 + i)
       = Some (if (c =? space)%N then underscore else c))
  ∧ take 9 (briefing_file_name lower company) = u "briefing_"
  ∧ drop (9 + length (lower company)) (briefing_file_name lower company)
    = u ".md".
Proof.
  unfold briefing_file_name, replace_spaces. split_and!.
  - intros c Hc. apply elem_of_app in Hc as [Hc|Hc].
    { elem_inv Hc; by subst. }
    apply elem_of_app in Hc as [Hc|Hc].
    + apply list_elem_of_fmap in Hc as (y & -> & _).
      destruct (y =? space)%N eqn:E; [done|]. by apply N.eqb_neq.
    + elem_inv Hc; by subst.
  - rewrite !length_app, length_map. simpl. lia.
  - intros i c Hi. rewrite lookup_app_r by (simpl; lia).
    replace (9 + i - length (u "briefing_")) with i by (simpl; lia).
    rewrite lookup_app_l by (rewrite length_map; by eapply lookup_lt_Some).
    by rewrite list_lookup_fmap, Hi.
  - by rewrite take_app_length'.
  - rewrite drop_app_ge by (simpl; lia).
    rewrite drop_app_ge by (rewrite length_map; simpl; lia).
    replace (9 + length (lower company) - length (u "briefing_")
             - length (map _ (lower company))) with 0
      by (rewrite length_map; simpl; lia).
    done.
Qed.

(* ================================================================== *)
(** * Further instances on the stand-ins *)
(* ================================================================== *)

Example briefing_file_name_samples :
  briefing_file_name lower_ascii (u "Acme Corp") = u "briefing_acme_corp.md"
  ∧ briefing_file_name lower_ascii (u " A ") = u "briefing__a_.md".
Proof. split; reflexivity. Qed.

(** Without [duration] three stages store a [KeyError] placeholder; the
    industry stage, which does not read it, is not affected. *)
Example run_without_duration :
  ∃ final w t,
    run nat (stub_ok (u "results")) (stub_ok (u "analysis"))
      (delete "duration"%string acme_state) 0 = (Ok final, w, t)
    ∧ final !! "context_analysis"%string
      = Some (VStr (u "⚠️ Falha ao analisar o contexto da empresa: 'duration'"))
    ∧ final !! "industry_analysis"%string = Some (VStr (u "analysis"))
    ∧ final !! "strategy"%string
      = Some (VStr (u "⚠️ Falha ao desenvolver a estratégia: 'duration'"))
    ∧ final !! "executive_brief"%string
      = Some (VStr (u "⚠️ Falha ao criar o briefing: 'duration'"))
    ∧ length (prompts t) = 1.
Proof. eexists _, _, _. repeat split; compute_eq. Qed.

Lemma stage_missing_key_witness :
  "duration"%string ∈ stage_subscripts Strategy
  ∧ delete "duration"%string acme_state !! "duration"%string = None
  ∧ (is_Some (delete "duration"%string acme_state !! "company_name"%string)
     ∨ Strategy ≠ Context)
  ∧ ∃ e w' t,
      stage_node (stub_ok (u "results")) (stub_ok (u "analysis")) Strategy
        (delete "duration"%string acme_state) 0
      = (Ok {[ stage_field Strategy
               := VStr (stage_failure Strategy ++ exc_str e) ]}, w', t)
      ∧ prompts t = []
      ∧ ((∃ k', e = KeyError k'
                ∧ delete "duration"%string acme_state !! k' = None)
         ∨ (∃ q, EvSearch q (Raise e) ∈ t)).
Proof.
  assert (H1 : "duration"%string ∈ stage_subscripts Strategy)
    by (simpl; apply list_elem_of_here).
  assert (H2 : delete "duration"%string acme_state !! "duration"%string = None)
    by (vm_compute; reflexivity).
  assert (H3 : is_Some (delete "duration"%string acme_state
                          !! "company_name"%string)
               ∨ Strategy ≠ Context) by (right; discriminate).
  split; [exact H1|]. split; [exact H2|]. split; [exact H3|].
  exact (stage_missing_key (stub_ok (u "results")) (stub_ok (u "analysis"))
           Strategy (delete "duration"%string acme_state) 0 "duration"
           H1 H2 H3).
Defined.

Lemma run_calls_bounded_witness :
  has_inputs acme_state
  ∧ acme_state !! "company_name"%string = Some (VStr (u "Acme"))
  ∧ queries (run nat (stub_raise (u "quota exceeded"))
               (stub_ok (u "analysis")) acme_state 0).2
    = [ dquote ++ py_format (VStr (u "Acme")) ++ dquote ++ context_query_tail;
        industry_query_head ++ py_format (VStr (u "Acme")) ++ squote ]
  ∧ 2 ≤ length (prompts (run nat (stub_raise (u "quota exceeded"))
                           (stub_ok (u "analysis")) acme_state 0).2) ≤ 4.
Proof.
  assert (H : has_inputs acme_state) by (repeat split; eexists; reflexivity).
  assert (Hc : acme_state !! "company_name"%string = Some (VStr (u "Acme")))
    by (vm_compute; reflexivity).
  split; [exact H|]. split; [exact Hc|].
  exact (run_calls_bounded (stub_raise (u "quota exceeded"))
           (stub_ok (u "analysis")) acme_state 0 (VStr (u "Acme")) H Hc).
Defined.


Lemma run_again_witness :
  deterministic (stub_ok (u "results"))
  ∧ deterministic (stub_ok (u "analysis"))
  ∧ is_Some (acme_state !! "company_name"%string)
  ∧ ∃ final w1 t w2,
      run nat (stub_ok (u "results")) (stub_ok (u "analysis")) acme_state 0
        = (Ok final, w1, t)
      ∧ run nat (stub_ok (u "results")) (stub_ok (u "analysis")) final w1
        = (Ok final, w2, t).
Proof.
  assert (H1 : deterministic (stub_ok (u "results")))
    by (intros x w1 w2; reflexivity).
  assert (H2 : deterministic (stub_ok (u "analysis")))
    by (intros x w1 w2; reflexivity).
  assert (H3 : is_Some (acme_state !! "company_name"%string))
    by (eexists; reflexivity).
  split; [exact H1|]. split; [exact H2|]. split; [exact H3|].
  exact (run_again (stub_ok (u "results")) (stub_ok (u "analysis"))
           acme_state 0 H1 H2 H3).
Defined.

Lemma run_data_flow_witness :
  has_inputs acme_state
  ∧ ∃ final w' t v1 v2 v3 tail p4,
      run nat (stub_raise (u "quota exceeded")) (stub_ok (u "analysis"))
        acme_state 0 = (Ok final, w', t)
      ∧ final !! "context_analysis"%string = Some (VStr v1)
      ∧ final !! "industry_analysis"%string = Some (VStr v2)
      ∧ final !! "strategy"%string = Some (VStr v3)
      ∧ prompts (segment "strategy" t)
        = [strategy_prompt_head ++ v1 ++ strategy_prompt_mid ++ v2 ++ tail]
      ∧ prompts (segment "brief" t) = [p4]
      ∧ Contains v1 p4 ∧ Contains v2 p4 ∧ Contains v3 p4.
Proof.
  assert (H : has_inputs acme_state) by (repeat split; eexists; reflexivity).
  split; [exact H|].
  exact (run_data_flow (stub_raise (u "quota exceeded"))
           (stub_ok (u "analysis")) acme_state 0 H).
Defined.

Lemma on_click_rejected_witness :
  validate_inputs (u " ") (u "Discuss partnership") (u "John - CEO")
  = Some err_company_required
  ∧ on_click nat (stub_ok (u "results")) (stub_ok (u "analysis")) lower_ascii
      (u " ") (u "Discuss partnership") (u "John - CEO") 60 []
      (u "2025-01-01T00:00:00") false 0
    = ([StWarning (u "⚠️ " ++ err_company_required)], 0, []).
Proof.
  assert (H : validate_inputs (u " ") (u "Discuss partnership")
                (u "John - CEO") = Some err_company_required)
    by (vm_compute; reflexivity).
  split; [exact H|].
  exact (on_click_rejected (stub_ok (u "results")) (stub_ok (u "analysis"))
           lower_ascii (u " ") (u "Discuss partnership") (u "John - CEO") 60
           [] (u "2025-01-01T00:00:00") false 0 err_company_required H).
Defined.

Lemma on_click_shows_brief_witness :
  validate_inputs (u "Acme") (u "Discuss partnership") (u "John - CEO") = None
  ∧ ∃ final w' t brief,
      run nat (stub_raise (u "quota exceeded")) (stub_raise (u "timeout"))
        (initial_state (u "Acme") (u "Discuss partnership") (u "John - CEO")
           60 [] (u "2025-01-01T00:00:00")) 0
      = (Ok final, w', t)
      ∧ final !! "executive_brief"%string = Some (VStr brief)
      ∧ on_click nat (stub_raise (u "quota exceeded"))
          (stub_raise (u "timeout")) lower_ascii
          (u "Acme") (u "Discuss partnership") (u "John - CEO") 60 []
          (u "2025-01-01T00:00:00") true 0
        = ([ StProgress 0 (u "Iniciando análise...");
             StProgress 100 (u "Briefing finalizado!");
             StSuccess (u "✅ **Briefing preparado com sucesso!**");
             StMarkdown (u "---");
             StMarkdown brief;
             StDownloadButton (u "📥 Download do Briefing (MD)") brief
               (briefing_file_name lower_ascii (u "Acme"))
               (u "text/markdown");
             StProgressEmpty ], w', t).
Proof.
  assert (H : validate_inputs (u "Acme") (u "Discuss partnership")
                (u "John - CEO") = None) by (vm_compute; reflexivity).
  split; [exact H|].
  exact (on_click_shows_brief (stub_raise (u "quota exceeded"))
           (stub_raise (u "timeout")) lower_ascii (u "Acme")
           (u "Discuss partnership") (u "John - CEO") 60 []
           (u "2025-01-01T00:00:00") true 0 H).
Defined.
